(** * Reference-counted smart pointer: a shallow embedding of
      [source/smart_pointer/smart_pointer.hpp]

    The header defines two classes.  [PtrCounter] wraps one
    [unsigned int]; [SmartPointer<Type>] holds a raw pointer to the managed
    resource and a pointer to a heap-allocated [PtrCounter] that the handles
    of one resource share.

    The embedding keeps the three kinds of object the code manipulates in an
    explicit store: the live [SmartPointer] objects, the live [PtrCounter]
    objects, and the log of resources on which [delete] ran.  Every member
    function is a computation in a state-and-failure monad over that store;
    failure stands for undefined behaviour (a member access through a pointer
    to an object whose lifetime has ended).

    The file has two parts: the definitions (the classes, the store, client
    programs, sample stores) and the properties.  The properties first
    settle the member functions one by one, then the exact-count invariant
    of programs that handle non-null resources only and the run on which the
    copy constructor breaks it, and last the laws the operations obey
    together: round trips, ownership of resources, and what misuse of a raw
    pointer does. *)

From Stdlib Require Import ZArith Lia.
From stdpp Require Import base option gmap list.

Local Open Scope Z_scope.

(** ** [unsigned int] *)

(** The counter field is an [unsigned int]; arithmetic on it is modulo
    [2^32] (the usual width, and the one the specification assumes). *)
Definition UINT_MODULUS : Z := 2 ^ 32.
Definition UINT_MAX : Z := UINT_MODULUS - 1.
Definition wrap (z : Z) : Z := z mod UINT_MODULUS.

(** ** class PtrCounter *)

Module PtrCounter.

Record t : Type := Build { m_counter : Z }.

(** [PtrCounter() : m_counter(0) {}] *)
Definition new : t := {| m_counter := 0 |}.

(** [void reset() { m_counter = 0; }] *)
Definition reset (this : t) : t := {| m_counter := 0 |}.

(** [unsigned int get() { return m_counter; }] *)
Definition get (this : t) : Z := m_counter this.

(** [void operator++() { m_counter++; }] and
    [void operator++(int) { m_counter++; }] *)
Definition incr (this : t) : t := {| m_counter := wrap (m_counter this + 1) |}.

(** [void operator--() { m_counter--; }] and
    [void operator--(int) { m_counter--; }] *)
Definition decr (this : t) : t := {| m_counter := wrap (m_counter this - 1) |}.

(** Class invariant of a value of the C++ type. *)
Definition valid (this : t) : Prop := 0 <= m_counter this < UINT_MODULUS.

End PtrCounter.

(** ** Pointers and the store *)

(** A [Type*] is an address; [0] is [nullptr]. *)
Abbreviation ptr := N.
Definition nullptr : ptr := 0%N.

(** Addresses of [PtrCounter] objects ([new] never yields null) and of
    [SmartPointer] objects ([this]). *)
Abbreviation loc := positive.

Module SmartPointer.
Record t : Type := Build { resource_ : ptr; m_counter : loc }.
End SmartPointer.

Record state : Type := State {
  handles : gmap loc SmartPointer.t;   (* live SmartPointer objects *)
  counters : gmap loc PtrCounter.t;    (* live PtrCounter objects *)
  freed : list ptr                     (* resources deleted, latest first *)
}.

Definition init_state : state :=
  {| handles := ∅; counters := ∅; freed := [] |}.

(** ** The monad of member functions *)

Definition M (A : Type) : Type := state → option (A * state).

#[global] Instance M_ret : MRet M := λ A a s, Some (a, s).
#[global] Instance M_bind : MBind M := λ A B f m s,
  match m s with
  | Some (a, s') => f a s'
  | None => None
  end.
#[global] Instance M_fmap : FMap M := λ A B f m s,
  match m s with
  | Some (a, s') => Some (f a, s')
  | None => None
  end.

(** Result and final store of a run. *)
Definition exec {A} (m : M A) (s : state) : option state := snd <$> m s.
Definition eval {A} (m : M A) (s : state) : option A := fst <$> m s.

(** *** Primitive accesses *)

(** [new PtrCounter()]: an address that no live counter occupies. *)
Definition new_PtrCounter : M loc := λ s,
  let c := fresh (dom (counters s)) in
  Some (c, {| handles := handles s;
              counters := <[c := PtrCounter.new]> (counters s);
              freed := freed s |}).

(** Read the object behind a [PtrCounter*]. *)
Definition deref (c : loc) : M PtrCounter.t := λ s,
  match counters s !! c with
  | Some k => Some (k, s)
  | None => None
  end.

(** Call a mutating member function through a [PtrCounter*]. *)
Definition call (c : loc) (f : PtrCounter.t → PtrCounter.t) : M unit := λ s,
  match counters s !! c with
  | Some k => Some (tt, {| handles := handles s;
                           counters := <[c := f k]> (counters s);
                           freed := freed s |})
  | None => None
  end.

(** [delete m_counter;] *)
Definition delete_counter (c : loc) : M unit := λ s,
  match counters s !! c with
  | Some _ => Some (tt, {| handles := handles s;
                           counters := delete c (counters s);
                           freed := freed s |})
  | None => None
  end.

(** [delete resource_;] ([delete] of a null pointer does nothing). *)
Definition delete_resource (r : ptr) : M unit := λ s,
  if bool_decide (r = nullptr) then Some (tt, s)
  else Some (tt, {| handles := handles s;
                    counters := counters s;
                    freed := r :: freed s |}).

(** Read the fields of the [SmartPointer] at [this]. *)
Definition load (this : loc) : M SmartPointer.t := λ s,
  match handles s !! this with
  | Some h => Some (h, s)
  | None => None
  end.

(** Write the fields of the [SmartPointer] at [this]. *)
Definition store (this : loc) (h : SmartPointer.t) : M unit := λ s,
  Some (tt, {| handles := <[this := h]> (handles s);
               counters := counters s;
               freed := freed s |}).

(** End of the lifetime of the [SmartPointer] at [this]. *)
Definition retire (this : loc) : M unit := λ s,
  Some (tt, {| handles := delete this (handles s);
               counters := counters s;
               freed := freed s |}).

(** ** class SmartPointer *)

Import SmartPointer.

(** [explicit SmartPointer(Type *resource = nullptr)], lines 65-71. *)
Definition construct (this : loc) (resource : ptr) : M unit :=
  c ← new_PtrCounter;
  store this {| resource_ := resource; m_counter := c |};;
  if bool_decide (resource ≠ nullptr) then call c PtrCounter.incr
  else mret tt.

(** [~SmartPointer()], lines 80-86. *)
Definition destroy (this : loc) : M unit :=
  t ← load this;
  call (m_counter t) PtrCounter.decr;;
  k ← deref (m_counter t);
  (if PtrCounter.get k =? 0
   then delete_counter (m_counter t);; delete_resource (resource_ t)
   else mret tt);;
  retire this.

(** [SmartPointer &operator=(const SmartPointer &other)], lines 105-120.
    The guard compares the fields of the two objects; when it fails the two
    objects are distinct, so the fields of [other] read on entry are those
    the later statements read. *)
Definition assign (this other : loc) : M loc :=
  t ← load this;
  o ← load other;
  if bool_decide (resource_ t = resource_ o)
     && bool_decide (m_counter t = m_counter o)
  then mret this
  else
    call (m_counter t) PtrCounter.decr;;
    k ← deref (m_counter t);
    (if PtrCounter.get k =? 0
     then delete_counter (m_counter t);; delete_resource (resource_ t)
     else mret tt);;
    store this {| resource_ := resource_ o; m_counter := m_counter o |};;
    (if bool_decide (resource_ o ≠ nullptr)
     then call (m_counter o) PtrCounter.incr
     else mret tt);;
    mret this.

(** [SmartPointer &operator=(Type *other)], lines 121-133. *)
Definition assign_raw (this : loc) (other : ptr) : M loc :=
  t ← load this;
  call (m_counter t) PtrCounter.decr;;
  k ← deref (m_counter t);
  (if PtrCounter.get k =? 0
   then delete_counter (m_counter t);; delete_resource (resource_ t)
   else mret tt);;
  c ← new_PtrCounter;
  store this {| resource_ := other; m_counter := c |};;
  (if bool_decide (other ≠ nullptr) then call c PtrCounter.incr
   else mret tt);;
  mret this.

(** [SmartPointer(const SmartPointer &other)], lines 134-138. *)
Definition copy_construct (this other : loc) : M unit :=
  o ← load other;
  store this {| resource_ := resource_ o; m_counter := m_counter o |};;
  call (m_counter o) PtrCounter.incr.

(** [Type *GetPointer() const { return resource_; }] *)
Definition GetPointer (this : loc) : M ptr :=
  t ← load this; mret (resource_ t).

(** [size_t GetReferenceCount() const { return m_counter->get(); }] *)
Definition GetReferenceCount (this : loc) : M Z :=
  t ← load this;
  k ← deref (m_counter t);
  mret (PtrCounter.get k).

(** [void Detach() { }] *)
Definition Detach (this : loc) : M unit := mret tt.

(** Indirection through a [Type*]: undefined on a null pointer and on a
    pointer to a resource that has been deleted. *)
Definition deref_resource (r : ptr) : M ptr := λ s,
  if bool_decide (r = nullptr ∨ r ∈ freed s) then None else Some (r, s).

(** [Type &operator*() const { return *resource_; }], line 94.  The
    reference is represented by the address of the resource. *)
Definition operator_star (this : loc) : M ptr :=
  t ← load this; deref_resource (resource_ t).

(** [Type *operator->() const { return resource_; }], line 95. *)
Definition operator_arrow (this : loc) : M ptr :=
  t ← load this; mret (resource_ t).

(** ** Specification-level description of the release step

    The destructor and both assignment operators open with the same three
    statements: decrement the counter, test it against zero, and on zero
    delete the counter and the resource.  [release_step] writes the effect of
    these statements on the store directly, in the words of the
    specification ("decrement, release on zero"); the theorems below compare
    the member functions with it. *)
Definition release_step (t : SmartPointer.t) (s : state) : option state :=
  match counters s !! m_counter t with
  | Some k =>
      if PtrCounter.get (PtrCounter.decr k) =? 0
      then Some {| handles := handles s;
                   counters := delete (m_counter t) (counters s);
                   freed := if bool_decide (resource_ t = nullptr)
                            then freed s else resource_ t :: freed s |}
      else Some {| handles := handles s;
                   counters := <[m_counter t := PtrCounter.decr k]> (counters s);
                   freed := freed s |}
  | None => None
  end.

(** ** Programs

    A client program is a sequence of the five lifecycle events of
    handles.  [admissible] says when an event is one a C++ program can
    perform on non-null resources: constructors run on storage that holds no
    live handle, the other events on live handles, and raw pointers handed
    over are non-null.  The bound on the number of handles keeps the count
    inside [unsigned int]. *)
Inductive op : Type :=
  | Construct (this : loc) (resource : ptr)
  | CopyConstruct (this other : loc)
  | CopyAssign (this other : loc)
  | RawAssign (this : loc) (other : ptr)
  | Destroy (this : loc).

Definition run (o : op) : M unit :=
  match o with
  | Construct this resource => construct this resource
  | CopyConstruct this other => copy_construct this other
  | CopyAssign this other => assign this other;; mret tt
  | RawAssign this other => assign_raw this other;; mret tt
  | Destroy this => destroy this
  end.

Definition admissible (o : op) (s : state) : Prop :=
  match o with
  | Construct this resource =>
      handles s !! this = None ∧ resource ≠ nullptr
      ∧ Z.of_nat (size (handles s)) + 1 < UINT_MODULUS
  | CopyConstruct this other =>
      handles s !! this = None ∧ is_Some (handles s !! other)
      ∧ Z.of_nat (size (handles s)) + 1 < UINT_MODULUS
  | CopyAssign this other =>
      is_Some (handles s !! this) ∧ is_Some (handles s !! other)
  | RawAssign this other =>
      is_Some (handles s !! this) ∧ other ≠ nullptr
  | Destroy this => is_Some (handles s !! this)
  end.

#[global] Instance admissible_dec o s : Decision (admissible o s).
Proof. destruct o; apply _. Defined.

Fixpoint run_all (os : list op) : M unit :=
  match os with
  | [] => mret tt
  | o :: os' => run o;; run_all os'
  end.

Fixpoint admissible_all (os : list op) (s : state) : Prop :=
  match os with
  | [] => True
  | o :: os' =>
      admissible o s
      ∧ match exec (run o) s with
        | Some s' => admissible_all os' s'
        | None => True
        end
  end.

#[global] Instance admissible_all_dec os s : Decision (admissible_all os s).
Proof.
  revert s. induction os as [|o os IH]; intros s; cbn [admissible_all].
  - apply _.
  - destruct (exec (run o) s); apply _.
Defined.

(** ** Counting handles *)

(** Number of live handles whose counter pointer is [c]. *)
Definition pointing (c : loc) (m : gmap loc SmartPointer.t) : nat :=
  size (filter (λ p, m_counter p.2 = c) m).

(** What the counter cell at one address must look like when [n] live
    handles point at it. *)
Definition cell_ok (cell : option PtrCounter.t) (n : nat) : Prop :=
  match cell with
  | Some k => (0 < n)%nat ∧ PtrCounter.get k = Z.of_nat n
  | None => n = 0%nat
  end.

(** A store with exact counts: every handle holds a resource, a live
    counter holds the number of handles that point at it, which is not 0,
    and no handle points at an address without a live counter. *)
Record counted (s : state) : Prop := Counted {
  counted_size : Z.of_nat (size (handles s)) < UINT_MODULUS;
  counted_nonnull : ∀ h t, handles s !! h = Some t → resource_ t ≠ nullptr;
  counted_cells : ∀ c, cell_ok (counters s !! c) (pointing c (handles s))
}.

(** Contribution of one handle to the number of handles pointing at
    [c]. *)
Definition here (c : loc) (t : SmartPointer.t) : nat :=
  if decide (m_counter t = c) then 1%nat else 0%nat.

(** ** Ownership of resources *)

(** Some live handle holds [r]. *)
Definition held (r : ptr) (s : state) : Prop :=
  ∃ h t, handles s !! h = Some t ∧ resource_ t = r.

(** [r] has been handed to the handles at some point: it is held or has
    been deleted. *)
Definition known (r : ptr) (s : state) : Prop := r ∈ freed s ∨ held r s.

(** A store in which ownership is sound: the counts are exact, no live
    handle holds a deleted resource, no resource has been deleted twice, and
    two live handles hold the same resource exactly when they share the
    counter. *)
Record owned (s : state) : Prop := Owned {
  owned_counted : counted s;
  owned_alive : ∀ h t, handles s !! h = Some t → resource_ t ∉ freed s;
  owned_once : NoDup (freed s);
  owned_pairs : ∀ h h' t t',
    handles s !! h = Some t → handles s !! h' = Some t' →
    (resource_ t = resource_ t' ↔ m_counter t = m_counter t')
}.

(** The raw pointers an operation hands over to a handle. *)
Definition hands_over (o : op) : list ptr :=
  match o with
  | Construct _ resource => [resource]
  | RawAssign _ other => [other]
  | _ => []
  end.

(** [r] comes straight from [new]: no handle holds it and it has not been
    deleted. *)
Definition unowned (r : ptr) (s : state) : Prop :=
  (r ∉ freed s) ∧ map_Forall (λ _ t, resource_ t ≠ r) (handles s).

(** An admissible operation whose raw pointers come straight from
    [new]. *)
Definition well_formed (o : op) (s : state) : Prop :=
  admissible o s ∧ Forall (λ r, unowned r s) (hands_over o).

#[global] Instance well_formed_dec o s : Decision (well_formed o s).
Proof. unfold well_formed, unowned. apply _. Defined.

Fixpoint well_formed_all (os : list op) (s : state) : Prop :=
  match os with
  | [] => True
  | o :: os' =>
      well_formed o s
      ∧ match exec (run o) s with
        | Some s' => well_formed_all os' s'
        | None => True
        end
  end.

#[global] Instance well_formed_all_dec os s : Decision (well_formed_all os s).
Proof.
  revert s. induction os as [|o os IH]; intros s; cbn [well_formed_all].
  - apply _.
  - destruct (exec (run o) s); apply _.
Defined.

(** ** Sample stores and programs *)

(** A store with one handle at address 1 that owns resource 5 alone. *)
Definition sole_owner : state :=
  {| handles := {[ 1%positive := {| resource_ := 5%N; m_counter := 1%positive |} ]};
     counters := {[ 1%positive := {| PtrCounter.m_counter := 1 |} ]};
     freed := [] |}.

(** The store after [SmartPointer<T> p;] at address 1. *)
Definition null_handle : state :=
  {| handles := {[ 1%positive := {| resource_ := nullptr; m_counter := 1%positive |} ]};
     counters := {[ 1%positive := PtrCounter.new ]};
     freed := [] |}.

(** Handles 1 and 2 share resource 5 with count 2. *)
Definition two_owners : state :=
  {| handles := {[ 1%positive := {| resource_ := 5%N; m_counter := 1%positive |};
                   2%positive := {| resource_ := 5%N; m_counter := 1%positive |} ]};
     counters := {[ 1%positive := {| PtrCounter.m_counter := 2 |} ]};
     freed := [] |}.

(** The store after [SmartPointer<T> p; SmartPointer<T> q;]. *)
Definition two_null_handles : state :=
  {| handles := {[ 1%positive := {| resource_ := nullptr; m_counter := 1%positive |};
                   2%positive := {| resource_ := nullptr; m_counter := 2%positive |} ]};
     counters := {[ 1%positive := PtrCounter.new; 2%positive := PtrCounter.new ]};
     freed := [] |}.

(** Handle 1 owns resource 5 alone, handle 2 holds [nullptr], handle 3 owns
    resource 7 alone. *)
Definition three_handles : state :=
  {| handles := {[ 1%positive := {| resource_ := 5%N; m_counter := 1%positive |};
                   2%positive := {| resource_ := nullptr; m_counter := 2%positive |};
                   3%positive := {| resource_ := 7%N; m_counter := 3%positive |} ]};
     counters := {[ 1%positive := {| PtrCounter.m_counter := 1 |};
                    2%positive := PtrCounter.new;
                    3%positive := {| PtrCounter.m_counter := 1 |} ]};
     freed := [] |}.

(** Handles 1 and 2 share resource 5 with count 2, handle 3 owns resource 7
    alone. *)
Definition shared_and_single : state :=
  {| handles := {[ 1%positive := {| resource_ := 5%N; m_counter := 1%positive |};
                   2%positive := {| resource_ := 5%N; m_counter := 1%positive |};
                   3%positive := {| resource_ := 7%N; m_counter := 2%positive |} ]};
     counters := {[ 1%positive := {| PtrCounter.m_counter := 2 |};
                    2%positive := {| PtrCounter.m_counter := 1 |} ]};
     freed := [] |}.

(** The store after [SmartPointer<T> p; SmartPointer<T> q(p);]. *)
Definition null_copied : state :=
  {| handles := {[ 1%positive := {| resource_ := nullptr; m_counter := 1%positive |};
                   2%positive := {| resource_ := nullptr; m_counter := 1%positive |} ]};
     counters := {[ 1%positive := {| PtrCounter.m_counter := 1 |} ]};
     freed := [] |}.

(** [p] owns 5, [q] copies it, [q] takes 9, [r] owns 7 and is assigned [p],
    [p] dies, [q] is assigned [r], [r] and [q] die. *)
Definition sample_program : list op :=
  [Construct 1 5; CopyConstruct 2 1; RawAssign 2 9; Construct 3 7;
   CopyAssign 3 1; Destroy 1; CopyAssign 2 3; Destroy 3; Destroy 2].

(** [p] owns 5 and is copied twice. *)
Definition sharing_program : list op :=
  [Construct 1 5; CopyConstruct 2 1; CopyConstruct 3 2].

(** * Properties *)

(** ** Arithmetic of the counter *)

Lemma wrap_range z : 0 <= wrap z < UINT_MODULUS.
Proof. unfold wrap. apply Z.mod_pos_bound. reflexivity. Qed.

Lemma wrap_small z : 0 <= z < UINT_MODULUS → wrap z = z.
Proof. intros Hz. unfold wrap. by apply Z.mod_small. Qed.

Lemma incr_valid k : PtrCounter.valid (PtrCounter.incr k).
Proof. apply wrap_range. Qed.

Lemma decr_valid k : PtrCounter.valid (PtrCounter.decr k).
Proof. apply wrap_range. Qed.

Lemma get_decr_pos k :
  PtrCounter.valid k → 0 < PtrCounter.get k →
  PtrCounter.get (PtrCounter.decr k) = PtrCounter.get k - 1.
Proof.
  unfold PtrCounter.valid, PtrCounter.get. intros Hv Hpos. simpl.
  apply wrap_small. lia.
Qed.

Lemma get_decr_zero k :
  PtrCounter.get k = 0 → PtrCounter.get (PtrCounter.decr k) = UINT_MAX.
Proof. unfold PtrCounter.get. intros Hk. simpl. by rewrite Hk. Qed.

Lemma get_incr_below k :
  PtrCounter.valid k → PtrCounter.get k < UINT_MAX →
  PtrCounter.get (PtrCounter.incr k) = PtrCounter.get k + 1.
Proof.
  unfold PtrCounter.valid, PtrCounter.get, UINT_MAX. intros Hv Hlt. simpl.
  apply wrap_small. lia.
Qed.

Lemma get_incr_max k :
  PtrCounter.get k = UINT_MAX → PtrCounter.get (PtrCounter.incr k) = 0.
Proof. unfold PtrCounter.get. intros Hk. simpl. by rewrite Hk. Qed.

(** The value [operator--] leaves in the counter. *)
Lemma decr_value k :
  PtrCounter.decr k
  = {| PtrCounter.m_counter := (PtrCounter.get k - 1) mod 2 ^ 32 |}.
Proof. reflexivity. Qed.

(** The value [operator++] leaves in the counter. *)
Lemma incr_value k :
  PtrCounter.incr k
  = {| PtrCounter.m_counter := (PtrCounter.get k + 1) mod 2 ^ 32 |}.
Proof. reflexivity. Qed.

Lemma mod_pred_small n :
  1 <= n < 2 ^ 32 → (n - 1) mod 2 ^ 32 = n - 1.
Proof. intros Hn. apply Z.mod_small. lia. Qed.

Lemma mod_succ_small n :
  0 <= n → n + 1 < 2 ^ 32 → (n + 1) mod 2 ^ 32 = n + 1.
Proof. intros Hn Hlt. apply Z.mod_small. lia. Qed.

Lemma get_incr_small k :
  0 <= PtrCounter.get k → PtrCounter.get k + 1 < 2 ^ 32 →
  PtrCounter.get (PtrCounter.incr k) = PtrCounter.get k + 1.
Proof. intros Hk Hlt. rewrite incr_value. by apply mod_succ_small. Qed.

(** C7 (as stated, refuted): decrementing a zero counter does not give
    [-1]: the field is unsigned, so the value read back is [2^32 - 1]; and
    incrementing does not always give [count + 1]: at [2^32 - 1] it gives
    [0]. *)
Lemma C7_decrement_of_zero_is_not_negative :
  PtrCounter.get (PtrCounter.decr PtrCounter.new) = 4294967295
  ∧ PtrCounter.get (PtrCounter.decr PtrCounter.new) ≠ -1
  ∧ PtrCounter.get (PtrCounter.incr {| PtrCounter.m_counter := 4294967295 |})
    ≠ 4294967295 + 1.
Proof. by vm_compute. Qed.

(** C7 (amended): on a counter holding a value of [unsigned int],
    decrementing zero wraps to [2^32 - 1] (never a negative value);
    decrementing a positive count gives [count - 1]; incrementing gives
    [count + 1] below [2^32 - 1] and wraps to [0] at [2^32 - 1]; the value
    read back always lies in [0, 2^32). *)
Theorem C7_counter_arithmetic (k : PtrCounter.t) :
  PtrCounter.valid k →
  (PtrCounter.get k = 0 → PtrCounter.get (PtrCounter.decr k) = 2 ^ 32 - 1)
  ∧ (0 < PtrCounter.get k →
     PtrCounter.get (PtrCounter.decr k) = PtrCounter.get k - 1)
  ∧ (PtrCounter.get k < 2 ^ 32 - 1 →
     PtrCounter.get (PtrCounter.incr k) = PtrCounter.get k + 1)
  ∧ (PtrCounter.get k = 2 ^ 32 - 1 → PtrCounter.get (PtrCounter.incr k) = 0)
  ∧ 0 <= PtrCounter.get (PtrCounter.decr k) < 2 ^ 32
  ∧ 0 <= PtrCounter.get (PtrCounter.incr k) < 2 ^ 32.
Proof.
  intros Hv. repeat split.
  - apply get_decr_zero.
  - by apply get_decr_pos.
  - by apply get_incr_below.
  - apply get_incr_max.
  - apply decr_valid.
  - apply decr_valid.
  - apply incr_valid.
  - apply incr_valid.
Qed.

Lemma C7_counter_arithmetic_witness :
  PtrCounter.valid {| PtrCounter.m_counter := 2 |}
  ∧ PtrCounter.get (PtrCounter.decr {| PtrCounter.m_counter := 2 |}) = 1.
Proof.
  assert (Hv : PtrCounter.valid {| PtrCounter.m_counter := 2 |})
    by (unfold PtrCounter.valid; simpl; unfold UINT_MODULUS; lia).
  split; [exact Hv |].
  destruct (C7_counter_arithmetic {| PtrCounter.m_counter := 2 |} Hv)
    as (_ & Hdec & _).
  rewrite Hdec; [reflexivity | simpl; lia].
Defined.

(** ** Detach *)

(** C8: [Detach] does nothing: it returns with the store unchanged, so the
    resource pointer and counter pointer of every handle, the value of
    every counter and the log of deleted resources are what they were. *)
Theorem C8_Detach_noop (this : loc) (s : state) :
  Detach this s = Some (tt, s)
  ∧ exec (Detach this) s = Some s
  ∧ (∀ s', exec (Detach this) s = Some s' →
       handles s' = handles s ∧ counters s' = counters s
       ∧ freed s' = freed s).
Proof.
  split; [reflexivity |]. split; [reflexivity |].
  intros s' Hs'. cbv in Hs'. by simplify_eq.
Qed.

(** ** Running the monad *)

Lemma bind_run {A B} (m : M A) (f : A → M B) s :
  (m ≫= f) s = match m s with Some (a, s') => f a s' | None => None end.
Proof. reflexivity. Qed.

Lemma ret_run {A} (a : A) s : (mret a : M A) s = Some (a, s).
Proof. reflexivity. Qed.

Lemma bind_run_Some {A B} (m : M A) (f : A → M B) s a s' :
  m s = Some (a, s') → (m ≫= f) s = f a s'.
Proof. intros H. by rewrite bind_run, H. Qed.

Lemma load_run this t s :
  handles s !! this = Some t → load this s = Some (t, s).
Proof. intros Ht. unfold load. by rewrite Ht. Qed.

Lemma handle_eta (t : SmartPointer.t) :
  {| resource_ := resource_ t; m_counter := m_counter t |} = t.
Proof. by destruct t. Qed.

Lemma handle_ext (t t' : SmartPointer.t) :
  resource_ t = resource_ t' → m_counter t = m_counter t' → t = t'.
Proof. destruct t, t'. cbn. by intros -> ->. Qed.

(** The three opening statements of the destructor and of the assignment
    operators, followed by any continuation [f], run as [release_step]
    followed by [f]. *)
Lemma release_prefix {A} (t : SmartPointer.t) (f : M A) s :
  (call (m_counter t) PtrCounter.decr;;
   k ← deref (m_counter t);
   (if PtrCounter.get k =? 0
    then delete_counter (m_counter t);; delete_resource (resource_ t)
    else mret tt);;
   f) s
  = match release_step t s with Some s1 => f s1 | None => None end.
Proof.
  unfold release_step. rewrite bind_run. unfold call at 1.
  destruct (counters s !! m_counter t) as [k|] eqn:Hk; [| done].
  rewrite bind_run. unfold deref at 1. cbn [counters].
  rewrite lookup_insert_eq. rewrite bind_run.
  destruct (PtrCounter.get (PtrCounter.decr k) =? 0) eqn:Hz.
  - rewrite bind_run. unfold delete_counter at 1. cbn [counters handles freed].
    rewrite lookup_insert_eq, delete_insert_eq.
    unfold delete_resource. cbn [counters handles freed].
    by case_bool_decide.
  - by rewrite ret_run.
Qed.

Lemma release_step_handles t s s1 :
  release_step t s = Some s1 → handles s1 = handles s.
Proof.
  unfold release_step. intros H.
  destruct (counters s !! m_counter t); [| done].
  destruct (_ =? 0); by simplify_eq.
Qed.

Lemma release_step_other t s s1 c :
  release_step t s = Some s1 → c ≠ m_counter t →
  counters s1 !! c = counters s !! c.
Proof.
  unfold release_step. intros H Hc.
  destruct (counters s !! m_counter t); [| done].
  destruct (_ =? 0); simplify_eq; cbn [counters].
  - by rewrite lookup_delete_ne.
  - by rewrite lookup_insert_ne.
Qed.

Lemma release_step_is_Some t s :
  is_Some (release_step t s) ↔ is_Some (counters s !! m_counter t).
Proof.
  unfold release_step.
  destruct (counters s !! m_counter t); [| by split; intros []].
  destruct (_ =? 0); split; eauto.
Qed.

(** When the counter of [t] is live the release step succeeds: name its
    result. *)
Ltac release_live t s s1 Hs1 :=
  destruct (release_step t s) as [s1|] eqn:Hs1;
  [| exfalso;
     assert (is_Some (release_step t s)) as [? ?]
       by (apply release_step_is_Some; eauto);
     congruence].

(** The destructor is the release step followed by the end of the
    handle's lifetime. *)
Lemma destroy_run this t s :
  handles s !! this = Some t →
  destroy this s =
  match release_step t s with
  | Some s1 => Some (tt, {| handles := delete this (handles s);
                            counters := counters s1;
                            freed := freed s1 |})
  | None => None
  end.
Proof.
  intros Ht. unfold destroy. rewrite bind_run, (load_run _ _ _ Ht).
  rewrite release_prefix.
  destruct (release_step t s) as [s1|] eqn:Hs1; [| done].
  unfold retire. by rewrite (release_step_handles _ _ _ Hs1).
Qed.

(** Copy assignment that passes the guard: the release step, then the two
    field assignments, then the guarded increment. *)
Lemma assign_run this other t o s :
  handles s !! this = Some t →
  handles s !! other = Some o →
  ¬ (resource_ t = resource_ o ∧ m_counter t = m_counter o) →
  assign this other s =
  match release_step t s with
  | Some s1 =>
      if bool_decide (resource_ o ≠ nullptr)
      then match counters s1 !! m_counter o with
           | Some w =>
               Some (this,
                     {| handles := <[this := o]> (handles s);
                        counters :=
                          <[m_counter o := PtrCounter.incr w]> (counters s1);
                        freed := freed s1 |})
           | None => None
           end
      else Some (this, {| handles := <[this := o]> (handles s);
                          counters := counters s1;
                          freed := freed s1 |})
  | None => None
  end.
Proof.
  intros Ht Ho Hguard. unfold assign.
  rewrite bind_run, (load_run _ _ _ Ht).
  rewrite bind_run, (load_run _ _ _ Ho).
  replace (bool_decide (resource_ t = resource_ o)
           && bool_decide (m_counter t = m_counter o)) with false; last first.
  { symmetry. apply andb_false_iff.
    destruct (decide (resource_ t = resource_ o)) as [Hr|Hr].
    - right. apply bool_decide_eq_false. tauto.
    - left. by apply bool_decide_eq_false. }
  rewrite release_prefix.
  destruct (release_step t s) as [s1|] eqn:Hs1; [| done].
  rewrite bind_run. unfold store at 1. rewrite handle_eta.
  rewrite (release_step_handles _ _ _ Hs1).
  rewrite bind_run. case_bool_decide; [| done].
  unfold call. cbn [counters handles freed].
  by destruct (counters s1 !! m_counter o).
Qed.

(** Copy assignment that is stopped by the guard. *)
Lemma assign_guard this other t o s :
  handles s !! this = Some t →
  handles s !! other = Some o →
  resource_ t = resource_ o → m_counter t = m_counter o →
  assign this other s = Some (this, s).
Proof.
  intros Ht Ho Hr Hc. unfold assign.
  rewrite bind_run, (load_run _ _ _ Ht).
  rewrite bind_run, (load_run _ _ _ Ho).
  by rewrite (bool_decide_eq_true_2 _ Hr), (bool_decide_eq_true_2 _ Hc).
Qed.

(** Raw-pointer assignment: the release step, then a new counter. *)
Lemma assign_raw_run this t r s :
  handles s !! this = Some t →
  assign_raw this r s =
  match release_step t s with
  | Some s1 =>
      let c := fresh (dom (counters s1)) in
      Some (this,
            {| handles :=
                 <[this := {| resource_ := r; m_counter := c |}]> (handles s);
               counters :=
                 <[c := if bool_decide (r ≠ nullptr)
                        then PtrCounter.incr PtrCounter.new
                        else PtrCounter.new]> (counters s1);
               freed := freed s1 |})
  | None => None
  end.
Proof.
  intros Ht. unfold assign_raw. rewrite bind_run, (load_run _ _ _ Ht).
  rewrite release_prefix.
  destruct (release_step t s) as [s1|] eqn:Hs1; [| done].
  rewrite bind_run. unfold new_PtrCounter at 1. cbn zeta.
  rewrite bind_run. unfold store at 1. cbn [counters handles freed].
  rewrite (release_step_handles _ _ _ Hs1).
  rewrite bind_run. case_bool_decide; [| done].
  unfold call. cbn [counters handles freed].
  by rewrite lookup_insert_eq, insert_insert_eq.
Qed.

(** The constructor. *)
Lemma construct_run this r s :
  construct this r s =
  let c := fresh (dom (counters s)) in
  Some (tt,
        {| handles :=
             <[this := {| resource_ := r; m_counter := c |}]> (handles s);
           counters :=
             <[c := if bool_decide (r ≠ nullptr)
                    then PtrCounter.incr PtrCounter.new
                    else PtrCounter.new]> (counters s);
           freed := freed s |}).
Proof.
  unfold construct. rewrite bind_run. unfold new_PtrCounter at 1. cbn zeta.
  rewrite bind_run. unfold store at 1. cbn [counters handles freed].
  case_bool_decide; [| done].
  unfold call. cbn [counters handles freed].
  by rewrite lookup_insert_eq, insert_insert_eq.
Qed.

(** The copy constructor. *)
Lemma copy_construct_run this other o s :
  handles s !! other = Some o →
  copy_construct this other s =
  match counters s !! m_counter o with
  | Some w =>
      Some (tt, {| handles := <[this := o]> (handles s);
                   counters := <[m_counter o := PtrCounter.incr w]> (counters s);
                   freed := freed s |})
  | None => None
  end.
Proof.
  intros Ho. unfold copy_construct. rewrite bind_run, (load_run _ _ _ Ho).
  rewrite bind_run. unfold store at 1. rewrite handle_eta.
  unfold call. cbn [counters handles freed].
  by destruct (counters s !! m_counter o).
Qed.

Lemma GetReferenceCount_run this t k s :
  handles s !! this = Some t → counters s !! m_counter t = Some k →
  GetReferenceCount this s = Some (PtrCounter.get k, s).
Proof.
  intros Ht Hk. unfold GetReferenceCount.
  rewrite bind_run, (load_run _ _ _ Ht). rewrite bind_run.
  unfold deref. by rewrite Hk.
Qed.

Lemma GetPointer_run this t s :
  handles s !! this = Some t → GetPointer this s = Some (resource_ t, s).
Proof.
  intros Ht. unfold GetPointer. by rewrite bind_run, (load_run _ _ _ Ht).
Qed.

Lemma fresh_counter_None (m : gmap loc PtrCounter.t) :
  m !! fresh (dom m) = None.
Proof. apply not_elem_of_dom, is_fresh. Qed.

(** ** Construction *)

(** C5: for every raw pointer, null included, the constructor succeeds; the
    counter it allocates sits at an address no live counter occupied, so
    no other handle with a live counter points at it; the handle stores the
    given pointer; the counter holds 1 when the pointer is non-null and 0
    when it is null.  A handle built from [nullptr] therefore reports
    [GetReferenceCount() == 0] and [GetPointer() == nullptr]. *)
Theorem C5_construct (this : loc) (resource : ptr) (s : state) :
  ∃ c s',
    construct this resource s = Some (tt, s')
    ∧ counters s !! c = None
    ∧ (∀ h t, h ≠ this → handles s' !! h = Some t →
         is_Some (counters s !! m_counter t) → m_counter t ≠ c)
    ∧ handles s' =
        <[this := {| resource_ := resource; m_counter := c |}]> (handles s)
    ∧ counters s' =
        <[c := {| PtrCounter.m_counter :=
                    if bool_decide (resource ≠ nullptr) then 1 else 0 |}]>
          (counters s)
    ∧ freed s' = freed s
    ∧ GetPointer this s' = Some (resource, s')
    ∧ GetReferenceCount this s' =
        Some (if bool_decide (resource ≠ nullptr) then 1 else 0, s')
    ∧ (resource = nullptr →
         GetReferenceCount this s' = Some (0, s')
         ∧ GetPointer this s' = Some (nullptr, s')).
Proof.
  eexists (fresh (dom (counters s))), _.
  split; [apply construct_run |].
  pose proof (fresh_counter_None (counters s)) as Hfresh.
  assert (Hcnt :
    (if bool_decide (resource ≠ nullptr)
     then PtrCounter.incr PtrCounter.new else PtrCounter.new)
    = {| PtrCounter.m_counter :=
           if bool_decide (resource ≠ nullptr) then 1 else 0 |})
    by (by case_bool_decide).
  assert (Hptr : ∀ s', handles s' !! this
            = Some {| resource_ := resource;
                      m_counter := fresh (dom (counters s)) |} →
            GetPointer this s' = Some (resource, s'))
    by (intros s' Hs'; by rewrite (GetPointer_run _ _ _ Hs')).
  assert (Hcount : ∀ s',
            handles s' !! this
            = Some {| resource_ := resource;
                      m_counter := fresh (dom (counters s)) |} →
            counters s' !! fresh (dom (counters s))
            = Some {| PtrCounter.m_counter :=
                        if bool_decide (resource ≠ nullptr) then 1 else 0 |} →
            GetReferenceCount this s'
            = Some (if bool_decide (resource ≠ nullptr) then 1 else 0, s'))
    by (intros s' Hs' Hk; by rewrite (GetReferenceCount_run _ _ _ _ Hs' Hk)).
  cbn [handles counters freed]. rewrite Hcnt.
  split; [done |]. split.
  { intros h t Hne Ht [k Hk] Heq. rewrite Heq in Hk. congruence. }
  split; [done |]. split; [done |]. split; [done |].
  split; [apply Hptr; apply lookup_insert_eq |].
  split; [apply Hcount; apply lookup_insert_eq |].
  intros ->. split.
  - by rewrite Hcount by apply lookup_insert_eq.
  - apply Hptr, lookup_insert_eq.
Qed.

(** ** Destruction *)

Lemma cons_neq {A} (x : A) (l : list A) : l ≠ x :: l.
Proof.
  intros H. apply (f_equal length) in H. simpl in H. lia.
Qed.

(** C2: the destructor decrements the handle's counter once: the
    decremented count is the old count minus one modulo [2^32].  When the
    decremented count is zero the counter object is deleted and the
    resource is deleted (a null resource pointer leaves nothing to delete);
    when it is not zero the counter stays, holding the decremented count,
    and nothing is deleted.  So a count of 1 releases, and a count from 2
    up leaves the counter at the count minus one and deletes nothing.
    Other counters are untouched, and the handle's lifetime ends. *)
Theorem C2_destroy (this : loc) (t : SmartPointer.t) (k : PtrCounter.t)
    (s : state) :
  handles s !! this = Some t →
  counters s !! m_counter t = Some k →
  ∃ s',
    destroy this s = Some (tt, s')
    ∧ handles s' = delete this (handles s)
    ∧ (∀ c, c ≠ m_counter t → counters s' !! c = counters s !! c)
    ∧ PtrCounter.get (PtrCounter.decr k) = (PtrCounter.get k - 1) mod 2 ^ 32
    ∧ ((PtrCounter.get k - 1) mod 2 ^ 32 = 0 →
         counters s' = delete (m_counter t) (counters s)
         ∧ freed s' = if bool_decide (resource_ t = nullptr)
                      then freed s else resource_ t :: freed s)
    ∧ ((PtrCounter.get k - 1) mod 2 ^ 32 ≠ 0 →
         counters s'
         = <[m_counter t :=
               {| PtrCounter.m_counter := (PtrCounter.get k - 1) mod 2 ^ 32 |}]>
             (counters s)
         ∧ freed s' = freed s)
    ∧ (counters s' !! m_counter t = None
       ↔ (PtrCounter.get k - 1) mod 2 ^ 32 = 0)
    ∧ (resource_ t ≠ nullptr →
       (freed s' = resource_ t :: freed s
        ↔ (PtrCounter.get k - 1) mod 2 ^ 32 = 0))
    ∧ (PtrCounter.get k = 1 →
         counters s' !! m_counter t = None
         ∧ freed s' = if bool_decide (resource_ t = nullptr)
                      then freed s else resource_ t :: freed s)
    ∧ (1 < PtrCounter.get k < 2 ^ 32 →
         counters s' !! m_counter t
         = Some {| PtrCounter.m_counter := PtrCounter.get k - 1 |}
         ∧ freed s' = freed s).
Proof.
  intros Ht Hk. rewrite (destroy_run _ _ _ Ht).
  release_live t s s1 Hs1.
  eexists. split; [reflexivity |]. cbn [handles counters freed].
  split; [done |].
  split; [intros c Hc; by apply (release_step_other t s) |].
  split; [reflexivity |].
  unfold release_step in Hs1. rewrite Hk, decr_value in Hs1.
  cbn [PtrCounter.get PtrCounter.m_counter] in Hs1.
  fold (PtrCounter.get k) in Hs1.
  destruct ((PtrCounter.get k - 1) mod 2 ^ 32 =? 0) eqn:Hz;
    simplify_eq; cbn [handles counters freed].
  - apply Z.eqb_eq in Hz. rewrite lookup_delete_eq.
    split; [done |]. split; [done |]. split; [done |].
    split; [intros Hr; by rewrite bool_decide_eq_false_2 |].
    split; [done |].
    intros Hrange. rewrite mod_pred_small in Hz by lia. lia.
  - apply Z.eqb_neq in Hz. rewrite lookup_insert_eq.
    split; [done |]. split; [done |]. split; [split; [done | tauto] |].
    split.
    { intros Hr. split; [| tauto]. intros Hf. by apply cons_neq in Hf. }
    split.
    { intros Hone. rewrite Hone in Hz. by exfalso. }
    intros Hrange. by rewrite mod_pred_small by lia.
Qed.

Lemma sole_owner_constructed :
  exec (construct 1 5) init_state = Some sole_owner.
Proof. reflexivity. Qed.

Lemma C2_destroy_witness :
  (∃ s', destroy 1 sole_owner = Some (tt, s') ∧ freed s' = [5%N]
         ∧ counters s' !! 1%positive = None)
  ∧ (∃ s', destroy 2 two_owners = Some (tt, s') ∧ freed s' = []
           ∧ counters s' !! 1%positive
             = Some {| PtrCounter.m_counter := 1 |}).
Proof.
  split.
  - destruct (C2_destroy 1 {| resource_ := 5%N; m_counter := 1%positive |}
                {| PtrCounter.m_counter := 1 |} sole_owner
                eq_refl eq_refl)
      as (s' & Hrun & _ & _ & _ & _ & _ & _ & _ & Hone & _).
    exists s'. split; [exact Hrun |].
    destruct (Hone eq_refl) as [Hc Hf]. split; [exact Hf | exact Hc].
  - destruct (C2_destroy 2 {| resource_ := 5%N; m_counter := 1%positive |}
                {| PtrCounter.m_counter := 2 |} two_owners
                eq_refl eq_refl)
      as (s' & Hrun & _ & _ & _ & _ & _ & _ & _ & _ & Hmore).
    exists s'. split; [exact Hrun |].
    destruct (Hmore ltac:(cbn; lia)) as [Hc Hf].
    split; [exact Hf | exact Hc].
Defined.

(** C9: destroying a handle whose counter holds 0 wraps the unsigned
    counter to [2^32 - 1]; the zero test after the decrement fails, so
    neither the counter nor the resource is deleted. *)
Theorem C9_destroy_zero_wraps (this : loc) (t : SmartPointer.t)
    (k : PtrCounter.t) (s : state) :
  handles s !! this = Some t →
  counters s !! m_counter t = Some k →
  PtrCounter.get k = 0 →
  ∃ s',
    destroy this s = Some (tt, s')
    ∧ PtrCounter.get (PtrCounter.decr k) = 2 ^ 32 - 1
    ∧ counters s' =
        <[m_counter t := {| PtrCounter.m_counter := 2 ^ 32 - 1 |}]> (counters s)
    ∧ counters s' !! m_counter t
      = Some {| PtrCounter.m_counter := 2 ^ 32 - 1 |}
    ∧ freed s' = freed s
    ∧ handles s' = delete this (handles s).
Proof.
  intros Ht Hk Hz. rewrite (destroy_run _ _ _ Ht).
  unfold release_step. rewrite Hk.
  assert (Hdec : PtrCounter.decr k = {| PtrCounter.m_counter := 2 ^ 32 - 1 |}).
  { unfold PtrCounter.decr. unfold PtrCounter.get in Hz. by rewrite Hz. }
  rewrite Hdec. cbn [PtrCounter.get PtrCounter.m_counter].
  eexists. split; [reflexivity |]. cbn [handles counters freed].
  by rewrite lookup_insert_eq.
Qed.

Lemma null_handle_constructed :
  exec (construct 1 nullptr) init_state = Some null_handle.
Proof. reflexivity. Qed.

Lemma C9_destroy_zero_wraps_witness :
  ∃ s', destroy 1 null_handle = Some (tt, s')
        ∧ counters s' !! 1%positive
          = Some {| PtrCounter.m_counter := 4294967295 |}
        ∧ freed s' = [].
Proof.
  destruct (C9_destroy_zero_wraps 1
              {| resource_ := nullptr; m_counter := 1%positive |}
              PtrCounter.new null_handle eq_refl eq_refl eq_refl)
    as (s' & Hrun & _ & _ & Hc & Hf & _).
  exists s'. split; [exact Hrun |]. split; [exact Hc | exact Hf].
Defined.

(** ** Copy assignment *)

(** C4: copy assignment from an operand that holds the same resource
    pointer and the same counter pointer, the handle itself included,
    returns [this] and leaves the whole store as it was: every handle's
    resource pointer and counter pointer, every count, and the log of
    deleted resources.  Repeating it changes nothing either. *)
Theorem C4_assign_alias_noop (this other : loc) (t o : SmartPointer.t)
    (s : state) :
  handles s !! this = Some t →
  handles s !! other = Some o →
  resource_ t = resource_ o →
  m_counter t = m_counter o →
  assign this other s = Some (this, s)
  ∧ assign this this s = Some (this, s)
  ∧ (assign this other;; assign this other) s = assign this other s
  ∧ GetReferenceCount this s = GetReferenceCount other s.
Proof.
  intros Ht Ho Hr Hc.
  assert (Hrun : assign this other s = Some (this, s))
    by by apply (assign_guard this other t o).
  split; [exact Hrun |].
  split; [by apply (assign_guard this this t t) |].
  split; [by rewrite bind_run, Hrun |].
  unfold GetReferenceCount.
  rewrite !bind_run, (load_run _ _ _ Ht), (load_run _ _ _ Ho).
  by rewrite Hc.
Qed.

Lemma two_owners_constructed :
  exec (construct 1 5;; copy_construct 2 1) init_state = Some two_owners.
Proof. reflexivity. Qed.

Lemma C4_assign_alias_noop_witness :
  assign 2 1 two_owners = Some (2%positive, two_owners)
  ∧ assign 2 2 two_owners = Some (2%positive, two_owners).
Proof.
  destruct (C4_assign_alias_noop 2 1
              {| resource_ := 5%N; m_counter := 1%positive |}
              {| resource_ := 5%N; m_counter := 1%positive |}
              two_owners eq_refl eq_refl eq_refl eq_refl)
    as (Halias & Hself & _).
  split; [exact Halias | exact Hself].
Defined.

(** C10: copy assignment between two handles that both hold [nullptr] and
    have different counters, both at 0, passes the guard (the counter
    pointers differ).  The assignee's counter wraps to [2^32 - 1] and stays
    allocated, nothing is deleted, the other handle's counter is adopted
    and not incremented, and afterwards both handles point at that one
    counter and report a reference count of 0. *)
Theorem C10_assign_between_null_handles (a b ca cb : loc)
    (ka kb : PtrCounter.t) (s : state) :
  handles s !! a = Some {| resource_ := nullptr; m_counter := ca |} →
  handles s !! b = Some {| resource_ := nullptr; m_counter := cb |} →
  ca ≠ cb →
  counters s !! ca = Some ka → PtrCounter.get ka = 0 →
  counters s !! cb = Some kb → PtrCounter.get kb = 0 →
  ∃ s',
    assign a b s = Some (a, s')
    ∧ handles s' =
        <[a := {| resource_ := nullptr; m_counter := cb |}]> (handles s)
    ∧ handles s' !! b = Some {| resource_ := nullptr; m_counter := cb |}
    ∧ counters s' =
        <[ca := {| PtrCounter.m_counter := 2 ^ 32 - 1 |}]> (counters s)
    ∧ freed s' = freed s
    ∧ GetReferenceCount a s' = Some (0, s')
    ∧ GetReferenceCount b s' = Some (0, s').
Proof.
  intros Ha Hb Hne Hka Hza Hkb Hzb.
  assert (Hab : a ≠ b) by (intros ->; congruence).
  rewrite (assign_run a b _ _ s Ha Hb) by (cbn; tauto).
  unfold release_step. cbn [m_counter resource_]. rewrite Hka.
  assert (Hdec : PtrCounter.decr ka = {| PtrCounter.m_counter := 2 ^ 32 - 1 |}).
  { unfold PtrCounter.decr. unfold PtrCounter.get in Hza. by rewrite Hza. }
  rewrite Hdec. cbn [PtrCounter.get PtrCounter.m_counter].
  replace (2 ^ 32 - 1 =? 0) with false by reflexivity.
  rewrite bool_decide_eq_false_2 by (intros H; by apply H).
  eexists. split; [reflexivity |]. cbn [handles counters freed].
  split; [done |].
  split; [by rewrite lookup_insert_ne |].
  split; [done |]. split; [done |].
  assert (Hcb : <[ca := {| PtrCounter.m_counter := 2 ^ 32 - 1 |}]> (counters s)
                !! cb = Some kb) by by rewrite lookup_insert_ne.
  split.
  - erewrite GetReferenceCount_run;
      [by rewrite Hzb | apply lookup_insert_eq | exact Hcb].
  - erewrite GetReferenceCount_run;
      [by rewrite Hzb | cbn [handles]; by rewrite lookup_insert_ne | exact Hcb].
Qed.

Lemma two_null_handles_constructed :
  exec (construct 1 nullptr;; construct 2 nullptr) init_state
  = Some two_null_handles.
Proof. reflexivity. Qed.

Lemma C10_assign_between_null_handles_witness :
  ∃ s', assign 1 2 two_null_handles = Some (1%positive, s')
        ∧ GetReferenceCount 1 s' = Some (0, s')
        ∧ GetReferenceCount 2 s' = Some (0, s')
        ∧ counters s' !! 1%positive
          = Some {| PtrCounter.m_counter := 4294967295 |}.
Proof.
  destruct (C10_assign_between_null_handles 1 2 1 2
              PtrCounter.new PtrCounter.new two_null_handles
              eq_refl eq_refl ltac:(discriminate)
              eq_refl eq_refl eq_refl eq_refl)
    as (s' & Hrun & _ & _ & Hc & _ & H1 & H2).
  exists s'. split; [exact Hrun |]. split; [exact H1 |]. split; [exact H2 |].
  by rewrite Hc.
Defined.

(** C3: when [this] and [other] do not hold the same (resource, counter)
    pair and the counter of [this] is live, copy assignment first runs the
    release step on the current pair (the counter is decremented to the old
    count minus one modulo [2^32]; on zero the counter and the resource are
    deleted, otherwise the counter stays with the decremented count and
    nothing is deleted), then stores the resource pointer and the counter
    pointer of [other] in [this], then increments the adopted counter
    exactly when the adopted resource is non-null, and returns [this].
    Consequently [h3 = h2 = h1] on three handles, [h1] holding a non-null
    resource, leaves the three on the pair of [h1]; the count is the count
    [h1] had plus one for each of [h2], [h3] that was not on its counter
    already: 3 when no fourth handle shares it. *)
Theorem C3_assign :
  (∀ (this other : loc) (t o : SmartPointer.t) (k : PtrCounter.t) (s : state),
     handles s !! this = Some t →
     handles s !! other = Some o →
     ¬ (resource_ t = resource_ o ∧ m_counter t = m_counter o) →
     counters s !! m_counter t = Some k →
     ∃ s1,
       release_step t s = Some s1
       ∧ counters s1 =
           (if (PtrCounter.get k - 1) mod 2 ^ 32 =? 0
            then delete (m_counter t) (counters s)
            else <[m_counter t :=
                     {| PtrCounter.m_counter :=
                          (PtrCounter.get k - 1) mod 2 ^ 32 |}]> (counters s))
       ∧ freed s1 =
           (if ((PtrCounter.get k - 1) mod 2 ^ 32 =? 0)
               && bool_decide (resource_ t ≠ nullptr)
            then resource_ t :: freed s else freed s)
       ∧ (1 < PtrCounter.get k < 2 ^ 32 →
            counters s1 !! m_counter t
            = Some {| PtrCounter.m_counter := PtrCounter.get k - 1 |}
            ∧ freed s1 = freed s)
       ∧ (resource_ o = nullptr →
            assign this other s =
            Some (this, {| handles := <[this := o]> (handles s);
                           counters := counters s1;
                           freed := freed s1 |}))
       ∧ (resource_ o ≠ nullptr →
            ∀ w, counters s1 !! m_counter o = Some w →
              assign this other s =
              Some (this,
                    {| handles := <[this := o]> (handles s);
                       counters :=
                         <[m_counter o :=
                             {| PtrCounter.m_counter :=
                                  (PtrCounter.get w + 1) mod 2 ^ 32 |}]>
                           (counters s1);
                       freed := freed s1 |})))
  ∧ (∀ (h1 h2 h3 : loc) (t1 t2 t3 : SmartPointer.t) (k1 k2 k3 : PtrCounter.t)
       (s : state),
       h1 ≠ h2 → h1 ≠ h3 → h2 ≠ h3 →
       handles s !! h1 = Some t1 →
       handles s !! h2 = Some t2 →
       handles s !! h3 = Some t3 →
       resource_ t1 ≠ nullptr →
       counters s !! m_counter t1 = Some k1 →
       counters s !! m_counter t2 = Some k2 →
       counters s !! m_counter t3 = Some k3 →
       0 <= PtrCounter.get k1 → PtrCounter.get k1 + 2 < 2 ^ 32 →
       (m_counter t2 = m_counter t1 → resource_ t2 = resource_ t1) →
       (m_counter t3 = m_counter t1 → resource_ t3 = resource_ t1) →
       (m_counter t3 = m_counter t2 → m_counter t2 ≠ m_counter t1 →
        (PtrCounter.get k2 - 1) mod 2 ^ 32 ≠ 0) →
       let joins (t : SmartPointer.t) : Z :=
         if decide (m_counter t = m_counter t1) then 0 else 1 in
       ∃ s',
         (x ← assign h2 h1; assign h3 x) s = Some (h3, s')
         ∧ handles s' !! h1 = Some t1
         ∧ handles s' !! h2 = Some t1
         ∧ handles s' !! h3 = Some t1
         ∧ GetReferenceCount h1 s'
           = Some (PtrCounter.get k1 + joins t2 + joins t3, s')
         ∧ GetReferenceCount h2 s' = GetReferenceCount h1 s'
         ∧ GetReferenceCount h3 s' = GetReferenceCount h1 s'
         ∧ (PtrCounter.get k1 = 3 - joins t2 - joins t3 →
            GetReferenceCount h1 s' = Some (3, s')
            ∧ GetReferenceCount h2 s' = Some (3, s')
            ∧ GetReferenceCount h3 s' = Some (3, s'))).
Proof.
  split.
  - intros this other t o k s Ht Ho Hguard Hk.
    rewrite (assign_run _ _ _ _ _ Ht Ho Hguard).
    unfold release_step. rewrite Hk, decr_value.
    cbn [PtrCounter.get PtrCounter.m_counter]. fold (PtrCounter.get k).
    destruct ((PtrCounter.get k - 1) mod 2 ^ 32 =? 0) eqn:Hz;
      (eexists; split; [reflexivity |]); cbn [handles counters freed].
    + apply Z.eqb_eq in Hz.
      split; [done |]. split.
      { cbn [andb]. by repeat case_bool_decide. }
      split.
      { intros Hrange. rewrite mod_pred_small in Hz by lia. lia. }
      split.
      * intros Hnull. by rewrite bool_decide_eq_false_2 by tauto.
      * intros Hnn w Hw. by rewrite bool_decide_eq_true_2, Hw.
    + split; [done |]. split; [done |]. split.
      { intros Hrange. rewrite lookup_insert_eq.
        by rewrite mod_pred_small by lia. }
      split.
      * intros Hnull. by rewrite bool_decide_eq_false_2 by tauto.
      * intros Hnn w Hw. by rewrite bool_decide_eq_true_2, Hw.
  - intros h1 h2 h3 t1 t2 t3 k1 k2 k3 s H12 H13 H23 Hh1 Hh2 Hh3 Hnn
      Hk1 Hk2 Hk3 Hlo Hhi Hr2 Hr3 Hshare joins.
    (* it is enough to reach a store where the three handles hold [t1] and
       the counter of [t1] holds the count announced *)
    assert (Hend : ∀ s' k',
      handles s' !! h1 = Some t1 → handles s' !! h2 = Some t1 →
      handles s' !! h3 = Some t1 →
      counters s' !! m_counter t1 = Some k' →
      PtrCounter.get k' = PtrCounter.get k1 + joins t2 + joins t3 →
      handles s' !! h1 = Some t1
      ∧ handles s' !! h2 = Some t1
      ∧ handles s' !! h3 = Some t1
      ∧ GetReferenceCount h1 s'
        = Some (PtrCounter.get k1 + joins t2 + joins t3, s')
      ∧ GetReferenceCount h2 s' = GetReferenceCount h1 s'
      ∧ GetReferenceCount h3 s' = GetReferenceCount h1 s'
      ∧ (PtrCounter.get k1 = 3 - joins t2 - joins t3 →
         GetReferenceCount h1 s' = Some (3, s')
         ∧ GetReferenceCount h2 s' = Some (3, s')
         ∧ GetReferenceCount h3 s' = Some (3, s'))).
    { intros s' k' Ha1 Ha2 Ha3 Hk' Hval.
      rewrite (GetReferenceCount_run _ _ _ _ Ha1 Hk').
      rewrite (GetReferenceCount_run _ _ _ _ Ha2 Hk').
      rewrite (GetReferenceCount_run _ _ _ _ Ha3 Hk').
      rewrite Hval.
      split; [done |]. split; [done |]. split; [done |].
      split; [done |]. split; [done |]. split; [done |].
      intros Hthree.
      replace (PtrCounter.get k1 + joins t2 + joins t3) with 3 by lia.
      done. }
    subst joins. cbn beta in *.
    rewrite bind_run.
    destruct (decide (m_counter t2 = m_counter t1)) as [E2|N2].
    + (* h2 is on the counter of h1 already: h2 = h1 stops at the guard *)
      pose proof (handle_ext t2 t1 (Hr2 E2) E2) as ->.
      rewrite (assign_guard h2 h1 t1 t1 s Hh2 Hh1 eq_refl eq_refl).
      destruct (decide (m_counter t3 = m_counter t1)) as [E3|N3].
      * pose proof (handle_ext t3 t1 (Hr3 E3) E3) as ->.
        rewrite (assign_guard h3 h2 t1 t1 s Hh3 Hh2 eq_refl eq_refl).
        eexists. split; [reflexivity |].
        apply (Hend s k1); try done. lia.
      * rewrite (assign_run h3 h2 t3 t1 s Hh3 Hh2) by tauto.
        release_live t3 s s3 Hs3.
        rewrite bool_decide_eq_true_2 by done.
        rewrite (release_step_other _ _ _ (m_counter t1) Hs3) by done.
        rewrite Hk1.
        eexists. split; [reflexivity |].
        apply (Hend _ (PtrCounter.incr k1)); cbn [handles counters].
        -- by rewrite lookup_insert_ne.
        -- by rewrite lookup_insert_ne.
        -- apply lookup_insert_eq.
        -- apply lookup_insert_eq.
        -- rewrite get_incr_small by lia. lia.
    + (* h2 leaves its counter and joins that of h1 *)
      rewrite (assign_run h2 h1 t2 t1 s Hh2 Hh1) by tauto.
      release_live t2 s s1 Hs1.
      rewrite bool_decide_eq_true_2 by done.
      rewrite (release_step_other _ _ _ (m_counter t1) Hs1) by done.
      rewrite Hk1.
      match goal with
      | |- context [assign h3 h2 ?st] => set (s2 := st)
      end.
      assert (Hs2h1 : handles s2 !! h1 = Some t1)
        by (subst s2; cbn [handles]; by rewrite lookup_insert_ne).
      assert (Hs2h2 : handles s2 !! h2 = Some t1)
        by (subst s2; cbn [handles]; apply lookup_insert_eq).
      assert (Hs2h3 : handles s2 !! h3 = Some t3)
        by (subst s2; cbn [handles]; by rewrite lookup_insert_ne).
      assert (Hs2k1 : counters s2 !! m_counter t1
                      = Some (PtrCounter.incr k1))
        by (subst s2; cbn [counters]; apply lookup_insert_eq).
      destruct (decide (m_counter t3 = m_counter t1)) as [E3|N3].
      * pose proof (handle_ext t3 t1 (Hr3 E3) E3) as ->.
        rewrite (assign_guard h3 h2 t1 t1 s2 Hs2h3 Hs2h2 eq_refl eq_refl).
        eexists. split; [reflexivity |].
        apply (Hend s2 (PtrCounter.incr k1)); try done.
        rewrite get_incr_small by lia. lia.
      * rewrite (assign_run h3 h2 t3 t1 s2 Hs2h3 Hs2h2) by tauto.
        assert (Hlive3 : is_Some (counters s2 !! m_counter t3)).
        { subst s2; cbn [counters]. rewrite lookup_insert_ne by done.
          destruct (decide (m_counter t3 = m_counter t2)) as [E32|N32].
          - rewrite E32. unfold release_step in Hs1.
            rewrite Hk2, decr_value in Hs1.
            cbn [PtrCounter.get PtrCounter.m_counter] in Hs1.
            fold (PtrCounter.get k2) in Hs1.
            rewrite (proj2 (Z.eqb_neq _ _) (Hshare E32 N2)) in Hs1.
            simplify_eq. cbn [counters]. rewrite lookup_insert_eq. eauto.
          - rewrite (release_step_other _ _ _ (m_counter t3) Hs1) by done.
            eauto. }
        release_live t3 s2 s3 Hs3.
        rewrite bool_decide_eq_true_2 by done.
        rewrite (release_step_other _ _ _ (m_counter t1) Hs3) by done.
        rewrite Hs2k1.
        eexists. split; [reflexivity |].
        apply (Hend _ (PtrCounter.incr (PtrCounter.incr k1)));
          cbn [handles counters].
        -- by rewrite lookup_insert_ne.
        -- by rewrite lookup_insert_ne.
        -- apply lookup_insert_eq.
        -- apply lookup_insert_eq.
        -- rewrite get_incr_small; rewrite get_incr_small by lia; lia.
Qed.

Lemma three_handles_constructed :
  exec (construct 1 5;; construct 2 nullptr;; construct 3 7) init_state
  = Some three_handles.
Proof. reflexivity. Qed.

Lemma shared_and_single_constructed :
  exec (construct 1 5;; copy_construct 2 1;; construct 3 7) init_state
  = Some shared_and_single.
Proof. reflexivity. Qed.

Lemma C3_assign_witness :
  (∃ s1, release_step {| resource_ := 5%N; m_counter := 1%positive |}
           shared_and_single = Some s1
         ∧ counters s1 !! 1%positive = Some {| PtrCounter.m_counter := 1 |}
         ∧ freed s1 = [])
  ∧ (∃ s1, release_step {| resource_ := 7%N; m_counter := 3%positive |}
             three_handles = Some s1
           ∧ freed s1 = [7%N])
  ∧ (∃ s', (x ← assign 2 1; assign 3 x) three_handles = Some (3%positive, s')
           ∧ GetReferenceCount 1 s' = Some (3, s')
           ∧ GetReferenceCount 2 s' = Some (3, s')
           ∧ GetReferenceCount 3 s' = Some (3, s'))
  ∧ (∃ s', (x ← assign 1 3; assign 2 x) shared_and_single
           = Some (2%positive, s')
           ∧ GetReferenceCount 3 s' = Some (3, s')
           ∧ GetReferenceCount 1 s' = Some (3, s')
           ∧ GetReferenceCount 2 s' = Some (3, s'))
  ∧ (∃ s', (x ← assign 2 1; assign 3 x) shared_and_single
           = Some (3%positive, s')
           ∧ GetReferenceCount 1 s' = Some (3, s')
           ∧ GetReferenceCount 2 s' = Some (3, s')
           ∧ GetReferenceCount 3 s' = Some (3, s')).
Proof.
  split; [| split; [| split; [| split]]].
  - destruct (proj1 C3_assign 2%positive 3%positive
                {| resource_ := 5%N; m_counter := 1%positive |}
                {| resource_ := 7%N; m_counter := 2%positive |}
                {| PtrCounter.m_counter := 2 |} shared_and_single
                eq_refl eq_refl ltac:(intros [? ?]; discriminate) eq_refl)
      as (s1 & Hrel & _ & _ & Hkeep & _).
    exists s1. split; [exact Hrel |]. apply Hkeep. cbn. lia.
  - destruct (proj1 C3_assign 3%positive 1%positive
                {| resource_ := 7%N; m_counter := 3%positive |}
                {| resource_ := 5%N; m_counter := 1%positive |}
                {| PtrCounter.m_counter := 1 |} three_handles
                eq_refl eq_refl ltac:(intros [? ?]; discriminate) eq_refl)
      as (s1 & Hrel & _ & Hfreed & _).
    exists s1. split; [exact Hrel | exact Hfreed].
  - destruct (proj2 C3_assign 1%positive 2%positive 3%positive
                {| resource_ := 5%N; m_counter := 1%positive |}
                {| resource_ := nullptr; m_counter := 2%positive |}
                {| resource_ := 7%N; m_counter := 3%positive |}
                {| PtrCounter.m_counter := 1 |} PtrCounter.new
                {| PtrCounter.m_counter := 1 |} three_handles
                ltac:(discriminate) ltac:(discriminate) ltac:(discriminate)
                eq_refl eq_refl eq_refl ltac:(discriminate)
                eq_refl eq_refl eq_refl
                ltac:(cbn; lia) ltac:(cbn; lia)
                ltac:(discriminate) ltac:(discriminate) ltac:(discriminate))
      as (s' & Hrun & _ & _ & _ & _ & _ & _ & Hthree).
    exists s'. split; [exact Hrun |]. exact (Hthree eq_refl).
  - destruct (proj2 C3_assign 3%positive 1%positive 2%positive
                {| resource_ := 7%N; m_counter := 2%positive |}
                {| resource_ := 5%N; m_counter := 1%positive |}
                {| resource_ := 5%N; m_counter := 1%positive |}
                {| PtrCounter.m_counter := 1 |}
                {| PtrCounter.m_counter := 2 |}
                {| PtrCounter.m_counter := 2 |} shared_and_single
                ltac:(discriminate) ltac:(discriminate) ltac:(discriminate)
                eq_refl eq_refl eq_refl ltac:(discriminate)
                eq_refl eq_refl eq_refl
                ltac:(cbn; lia) ltac:(cbn; lia)
                ltac:(discriminate) ltac:(discriminate)
                ltac:(intros _ _; discriminate))
      as (s' & Hrun & _ & _ & _ & _ & _ & _ & Hthree).
    exists s'. split; [exact Hrun |]. exact (Hthree eq_refl).
  - destruct (proj2 C3_assign 1%positive 2%positive 3%positive
                {| resource_ := 5%N; m_counter := 1%positive |}
                {| resource_ := 5%N; m_counter := 1%positive |}
                {| resource_ := 7%N; m_counter := 2%positive |}
                {| PtrCounter.m_counter := 2 |}
                {| PtrCounter.m_counter := 2 |}
                {| PtrCounter.m_counter := 1 |} shared_and_single
                ltac:(discriminate) ltac:(discriminate) ltac:(discriminate)
                eq_refl eq_refl eq_refl ltac:(discriminate)
                eq_refl eq_refl eq_refl
                ltac:(cbn; lia) ltac:(cbn; lia)
                ltac:(reflexivity) ltac:(discriminate)
                ltac:(discriminate))
      as (s' & Hrun & _ & _ & _ & _ & _ & _ & Hthree).
    exists s'. split; [exact Hrun |]. exact (Hthree eq_refl).
Defined.

(** ** Raw-pointer assignment *)

(** C6: assigning a raw pointer to a handle whose counter is live first runs
    the release step on the current pair, the same one copy assignment runs
    (decrement, and on zero delete the counter and the resource); it then
    attaches a counter at an address no live counter occupies, holding 1 for
    a non-null pointer and 0 for a null one, and returns [this].  No other
    handle is written.  In particular, when [h1] and [h2] share a resource
    with count 2, after [h2 = y] with [y] non-null [h1] still owns the old
    resource, now with count 1, nothing has been deleted, and [h2] owns [y]
    alone with count 1. *)
Theorem C6_assign_raw :
  (∀ (this : loc) (t : SmartPointer.t) (k : PtrCounter.t) (r : ptr)
     (s : state),
     handles s !! this = Some t →
     counters s !! m_counter t = Some k →
     ∃ s1 c s',
       release_step t s = Some s1
       ∧ counters s1 =
           (if PtrCounter.get (PtrCounter.decr k) =? 0
            then delete (m_counter t) (counters s)
            else <[m_counter t := PtrCounter.decr k]> (counters s))
       ∧ freed s1 =
           (if (PtrCounter.get (PtrCounter.decr k) =? 0)
               && bool_decide (resource_ t ≠ nullptr)
            then resource_ t :: freed s else freed s)
       ∧ (∀ other o,
            handles s !! other = Some o →
            ¬ (resource_ t = resource_ o ∧ m_counter t = m_counter o) →
            resource_ o = nullptr →
            assign this other s =
            Some (this, {| handles := <[this := o]> (handles s);
                           counters := counters s1;
                           freed := freed s1 |}))
       ∧ counters s1 !! c = None
       ∧ assign_raw this r s = Some (this, s')
       ∧ handles s' =
           <[this := {| resource_ := r; m_counter := c |}]> (handles s)
       ∧ counters s' =
           <[c := {| PtrCounter.m_counter :=
                       if bool_decide (r ≠ nullptr) then 1 else 0 |}]>
             (counters s1)
       ∧ freed s' = freed s1
       ∧ (∀ h, h ≠ this → handles s' !! h = handles s !! h))
  ∧ (∀ (h1 h2 : loc) (t : SmartPointer.t) (k : PtrCounter.t) (y : ptr)
       (s : state),
       h1 ≠ h2 →
       handles s !! h1 = Some t →
       handles s !! h2 = Some t →
       counters s !! m_counter t = Some k → PtrCounter.get k = 2 →
       y ≠ nullptr →
       ∃ s',
         assign_raw h2 y s = Some (h2, s')
         ∧ GetPointer h1 s' = Some (resource_ t, s')
         ∧ GetReferenceCount h1 s' = Some (1, s')
         ∧ GetPointer h2 s' = Some (y, s')
         ∧ GetReferenceCount h2 s' = Some (1, s')
         ∧ freed s' = freed s).
Proof.
  split.
  - intros this t k r s Ht Hk.
    release_live t s s1 Hs1.
    exists s1, (fresh (dom (counters s1))). eexists.
    split; [done |].
    assert (Hshape :
      counters s1 =
        (if PtrCounter.get (PtrCounter.decr k) =? 0
         then delete (m_counter t) (counters s)
         else <[m_counter t := PtrCounter.decr k]> (counters s))
      ∧ freed s1 =
        (if (PtrCounter.get (PtrCounter.decr k) =? 0)
            && bool_decide (resource_ t ≠ nullptr)
         then resource_ t :: freed s else freed s)).
    { unfold release_step in Hs1. rewrite Hk in Hs1.
      destruct (PtrCounter.get (PtrCounter.decr k) =? 0);
        simplify_eq; cbn [counters freed andb]; [| done].
      split; [done |]. by repeat case_bool_decide. }
    destruct Hshape as [Hcs Hfs].
    split; [exact Hcs |]. split; [exact Hfs |].
    split.
    { intros other o Ho Hguard Hnull.
      rewrite (assign_run _ _ _ _ _ Ht Ho Hguard), Hs1.
      by rewrite bool_decide_eq_false_2 by tauto. }
    split; [apply fresh_counter_None |].
    split; [by rewrite (assign_raw_run _ _ _ _ Ht), Hs1 |].
    cbn [handles counters freed].
    split; [done |].
    split.
    { f_equal. destruct (decide (r = nullptr)) as [Hr|Hr].
      - by rewrite !bool_decide_eq_false_2 by tauto.
      - by rewrite !bool_decide_eq_true_2. }
    split; [done |].
    intros h Hh. by rewrite lookup_insert_ne.
  - intros h1 h2 t k y s Hne Hh1 Hh2 Hk Htwo Hy.
    assert (Hk' : k = {| PtrCounter.m_counter := 2 |}).
    { destruct k as [n]. unfold PtrCounter.get in Htwo. simpl in Htwo.
      by subst. }
    subst k.
    rewrite (assign_raw_run _ _ _ _ Hh2).
    unfold release_step. rewrite Hk.
    replace (PtrCounter.get (PtrCounter.decr {| PtrCounter.m_counter := 2 |})
             =? 0) with false by reflexivity.
    cbn [handles counters freed]. cbn zeta.
    set (cs1 := <[m_counter t := PtrCounter.decr {| PtrCounter.m_counter := 2 |}]>
                  (counters s)).
    assert (Hc : fresh (dom cs1) ≠ m_counter t).
    { intros Heq. pose proof (fresh_counter_None cs1) as Hf.
      rewrite Heq in Hf. subst cs1. by rewrite lookup_insert_eq in Hf. }
    rewrite bool_decide_eq_true_2 by done.
    eexists. split; [reflexivity |].
    match goal with |- GetPointer h1 ?st = _ ∧ _ => set (s' := st) end.
    assert (Ha1 : handles s' !! h1 = Some t)
      by (subst s'; cbn [handles]; by rewrite lookup_insert_ne).
    assert (Ha2 : handles s' !! h2
                  = Some {| resource_ := y; m_counter := fresh (dom cs1) |})
      by (subst s'; cbn [handles]; apply lookup_insert_eq).
    assert (Hk1 : counters s' !! m_counter t
                  = Some (PtrCounter.decr {| PtrCounter.m_counter := 2 |})).
    { subst s'; cbn [counters]. rewrite lookup_insert_ne by done.
      subst cs1. apply lookup_insert_eq. }
    assert (Hk2 : counters s' !! fresh (dom cs1)
                  = Some (PtrCounter.incr PtrCounter.new))
      by (subst s'; cbn [counters]; apply lookup_insert_eq).
    split; [by rewrite (GetPointer_run _ _ _ Ha1) |].
    split; [by rewrite (GetReferenceCount_run _ _ _ _ Ha1 Hk1) |].
    split; [by rewrite (GetPointer_run _ _ _ Ha2) |].
    split; [by rewrite (GetReferenceCount_run _ _ _ _ Ha2 Hk2) |].
    done.
Qed.

Lemma C6_assign_raw_witness :
  (∃ s', assign_raw 1 9 sole_owner = Some (1%positive, s')
         ∧ freed s' = [5%N])
  ∧ (∃ s', assign_raw 2 9 two_owners = Some (2%positive, s')
           ∧ GetPointer 1 s' = Some (5%N, s')
           ∧ GetReferenceCount 1 s' = Some (1, s')
           ∧ GetPointer 2 s' = Some (9%N, s')
           ∧ GetReferenceCount 2 s' = Some (1, s')
           ∧ freed s' = []).
Proof.
  split.
  - destruct (proj1 C6_assign_raw 1%positive
                {| resource_ := 5%N; m_counter := 1%positive |}
                {| PtrCounter.m_counter := 1 |} 9%N sole_owner
                eq_refl eq_refl)
      as (s1 & c & s' & _ & _ & Hf1 & _ & _ & Hrun & _ & _ & Hf & _).
    exists s'. split; [exact Hrun |]. by rewrite Hf, Hf1.
  - apply (proj2 C6_assign_raw 1%positive 2%positive
             {| resource_ := 5%N; m_counter := 1%positive |}
             {| PtrCounter.m_counter := 2 |} 9%N two_owners
             ltac:(discriminate) eq_refl eq_refl eq_refl eq_refl
             ltac:(discriminate)).
Defined.

(** ** Exact counts on non-null resources *)

Lemma pointing_insert_fresh c h t (m : gmap loc SmartPointer.t) :
  m !! h = None →
  pointing c (<[h := t]> m) = (pointing c m + here c t)%nat.
Proof.
  intros Hh. unfold pointing, here. rewrite map_filter_insert. cbn [snd].
  destruct (decide (m_counter t = c)).
  - rewrite map_size_insert_None; [lia |].
    apply map_lookup_filter_None_2. by left.
  - rewrite delete_id by done. lia.
Qed.

Lemma pointing_delete c h t (m : gmap loc SmartPointer.t) :
  m !! h = Some t →
  (pointing c (delete h m) + here c t)%nat = pointing c m.
Proof.
  intros Hh. rewrite <-(insert_id m h t) at 2 by done.
  rewrite <-insert_delete_eq.
  rewrite pointing_insert_fresh by apply lookup_delete_eq. done.
Qed.

Lemma pointing_le_size c (m : gmap loc SmartPointer.t) :
  (pointing c m ≤ size m)%nat.
Proof. apply map_subseteq_size, map_filter_subseteq. Qed.

Lemma pointing_pos h t (m : gmap loc SmartPointer.t) :
  m !! h = Some t → (0 < pointing (m_counter t) m)%nat.
Proof.
  intros Hh. rewrite <-(pointing_delete _ h t m Hh).
  unfold here. rewrite decide_True by done. lia.
Qed.

Lemma counted_init : counted init_state.
Proof.
  split.
  - reflexivity.
  - intros h t Hh. cbn [init_state handles] in Hh.
    by rewrite lookup_empty in Hh.
  - intros c. cbn [init_state handles counters]. unfold pointing.
    by rewrite lookup_empty, map_filter_empty, map_size_empty.
Qed.

Lemma counted_live s h t :
  counted s → handles s !! h = Some t →
  ∃ k, counters s !! m_counter t = Some k
       ∧ PtrCounter.get k = Z.of_nat (pointing (m_counter t) (handles s))
       ∧ 1 <= PtrCounter.get k < UINT_MODULUS.
Proof.
  intros Hs Hh. pose proof (counted_cells s Hs (m_counter t)) as Hcell.
  pose proof (pointing_pos _ _ _ Hh) as Hpos.
  pose proof (pointing_le_size (m_counter t) (handles s)) as Hle.
  pose proof (counted_size s Hs) as Hsz.
  destruct (counters s !! m_counter t) as [k|]; cbn in Hcell; [| lia].
  exists k. split; [done |]. split; [tauto | lia].
Qed.

Lemma counted_construct this r s :
  counted s → admissible (Construct this r) s →
  ∃ s', construct this r s = Some (tt, s') ∧ counted s'.
Proof.
  intros Hs (Hfresh & Hr & Hsz). rewrite construct_run. cbn zeta.
  eexists. split; [reflexivity |].
  pose proof (fresh_counter_None (counters s)) as Hc.
  set (c := fresh (dom (counters s))) in *.
  pose proof (counted_cells s Hs c) as Hzero. rewrite Hc in Hzero.
  cbn in Hzero.
  split; cbn [handles counters freed].
  - rewrite map_size_insert_None by done. lia.
  - intros h t Hh. apply lookup_insert_Some in Hh as [[_ <-]|[_ Hh]];
      [done | by apply (counted_nonnull s Hs h)].
  - intros c0. rewrite pointing_insert_fresh by done. unfold here.
    cbn [m_counter]. rewrite bool_decide_eq_true_2 by done.
    destruct (decide (c = c0)) as [<-|Hne].
    + rewrite lookup_insert_eq, Hzero. cbn. split; [lia | reflexivity].
    + rewrite lookup_insert_ne by done. rewrite Nat.add_0_r.
      apply (counted_cells s Hs).
Qed.

Lemma counted_copy_construct this other s :
  counted s → admissible (CopyConstruct this other) s →
  ∃ s', copy_construct this other s = Some (tt, s') ∧ counted s'.
Proof.
  intros Hs (Hfresh & [o Ho] & Hsz).
  rewrite (copy_construct_run _ _ _ _ Ho).
  destruct (counted_live s other o Hs Ho) as (w & Hw & Hget & Hrange).
  rewrite Hw. eexists. split; [reflexivity |].
  pose proof (pointing_le_size (m_counter o) (handles s)) as Hle.
  split; cbn [handles counters freed].
  - rewrite map_size_insert_None by done. lia.
  - intros h t Hh. apply lookup_insert_Some in Hh as [[_ <-]|[_ Hh]];
      [by apply (counted_nonnull s Hs other) | by apply (counted_nonnull s Hs h)].
  - intros c0. rewrite pointing_insert_fresh by done. unfold here.
    destruct (decide (m_counter o = c0)) as [<-|Hne].
    + rewrite lookup_insert_eq. cbn. split; [lia |].
      unfold PtrCounter.get in *. cbn. rewrite wrap_small by lia. lia.
    + rewrite lookup_insert_ne by done. rewrite Nat.add_0_r.
      apply (counted_cells s Hs).
Qed.

Lemma counted_destroy this s :
  counted s → admissible (Destroy this) s →
  ∃ s', destroy this s = Some (tt, s') ∧ counted s'
        ∧ handles s' = delete this (handles s).
Proof.
  intros Hs [t Ht]. rewrite (destroy_run _ _ _ Ht).
  destruct (counted_live s this t Hs Ht) as (k & Hk & Hget & Hrange).
  unfold release_step. rewrite Hk.
  assert (Hdec : PtrCounter.get (PtrCounter.decr k) = PtrCounter.get k - 1).
  { unfold PtrCounter.get in *. cbn. apply wrap_small. lia. }
  rewrite Hdec.
  assert (Hcells : ∀ cs' : gmap loc PtrCounter.t,
            cs' = (if PtrCounter.get k - 1 =? 0
                   then delete (m_counter t) (counters s)
                   else <[m_counter t := PtrCounter.decr k]> (counters s)) →
            ∀ c0, cell_ok (cs' !! c0) (pointing c0 (delete this (handles s)))).
  { intros cs' -> c0.
    pose proof (pointing_delete c0 this t (handles s) Ht) as Hp.
    unfold here in Hp.
    destruct (decide (m_counter t = c0)) as [<-|Hne].
    - destruct (PtrCounter.get k - 1 =? 0) eqn:Hz.
      + apply Z.eqb_eq in Hz. rewrite lookup_delete_eq.
        unfold cell_ok. lia.
      + apply Z.eqb_neq in Hz. rewrite lookup_insert_eq.
        unfold cell_ok. split; [lia |]. rewrite Hdec. lia.
    - rewrite Nat.add_0_r in Hp. rewrite Hp.
      destruct (PtrCounter.get k - 1 =? 0).
      + rewrite lookup_delete_ne by done. apply (counted_cells s Hs).
      + rewrite lookup_insert_ne by done. apply (counted_cells s Hs). }
  assert (Hsize : Z.of_nat (size (delete this (handles s))) < UINT_MODULUS).
  { rewrite map_size_delete_Some by eauto.
    pose proof (counted_size s Hs). lia. }
  assert (Hnn : ∀ h t', delete this (handles s) !! h = Some t' →
                        resource_ t' ≠ nullptr).
  { intros h t' Hh. apply lookup_delete_Some in Hh as [_ Hh].
    by apply (counted_nonnull s Hs h). }
  destruct (PtrCounter.get k - 1 =? 0) eqn:Hz;
    (eexists; split; [reflexivity |]);
    (split; [| done]);
    (split; cbn [handles counters freed]; [done | done |]);
    by apply Hcells.
Qed.

(** Outside the guard and with a non-null operand, copy assignment is the
    destructor followed by the copy constructor. *)
Lemma assign_destroy_copy this other t o s :
  handles s !! this = Some t →
  handles s !! other = Some o →
  ¬ (resource_ t = resource_ o ∧ m_counter t = m_counter o) →
  resource_ o ≠ nullptr →
  assign this other s
  = (destroy this;; copy_construct this other;; mret this) s.
Proof.
  intros Ht Ho Hguard Hnn.
  assert (Hne : other ≠ this).
  { intros ->. rewrite Ht in Ho. simplify_eq. tauto. }
  rewrite (assign_run _ _ _ _ _ Ht Ho Hguard).
  rewrite bind_run, (destroy_run _ _ _ Ht).
  destruct (release_step t s) as [s1|]; [| done].
  rewrite bool_decide_eq_true_2 by done.
  rewrite bind_run.
  erewrite copy_construct_run;
    [| cbn [handles]; by rewrite lookup_delete_ne].
  cbn [handles counters freed].
  destruct (counters s1 !! m_counter o); [| done].
  by rewrite insert_delete_eq.
Qed.

(** Raw-pointer assignment is the destructor followed by the
    constructor. *)
Lemma assign_raw_destroy_construct this t r s :
  handles s !! this = Some t →
  assign_raw this r s = (destroy this;; construct this r;; mret this) s.
Proof.
  intros Ht. rewrite (assign_raw_run _ _ _ _ Ht).
  rewrite bind_run, (destroy_run _ _ _ Ht).
  destruct (release_step t s) as [s1|]; [| done].
  rewrite bind_run, construct_run.
  cbn [handles counters freed]. cbn zeta.
  by rewrite insert_delete_eq.
Qed.

(** Each operation of a well-formed program on non-null resources runs
    without undefined behaviour and keeps the counts exact. *)
Lemma counted_step o s :
  counted s → admissible o s →
  ∃ s', exec (run o) s = Some s' ∧ counted s'.
Proof.
  intros Hs Hadm. destruct o as [this r|this other|this other|this r|this];
    cbn [run].
  - destruct (counted_construct this r s Hs Hadm) as (s' & Hrun & Hs').
    exists s'. unfold exec. by rewrite Hrun.
  - destruct (counted_copy_construct this other s Hs Hadm) as (s' & Hrun & Hs').
    exists s'. unfold exec. by rewrite Hrun.
  - destruct Hadm as [[t Ht] [o Ho]].
    destruct (decide (resource_ t = resource_ o ∧ m_counter t = m_counter o))
      as [[Hr Hc]|Hguard].
    { exists s. unfold exec.
      by rewrite bind_run, (assign_guard _ _ _ _ _ Ht Ho Hr Hc). }
    assert (Hne : other ≠ this).
    { intros ->. rewrite Ht in Ho. simplify_eq. tauto. }
    pose proof (counted_nonnull s Hs other o Ho) as Hnn.
    destruct (counted_destroy this s Hs) as (s1 & Hrun1 & Hs1 & Hh1);
      [by exists t |].
    destruct (counted_copy_construct this other s1 Hs1) as (s' & Hrun2 & Hs').
    { cbn [admissible]. rewrite Hh1, lookup_delete_eq.
      rewrite lookup_delete_ne by done.
      split; [done |]. split; [by exists o |].
      rewrite map_size_delete_Some by eauto.
      pose proof (counted_size s Hs) as Hsz.
      assert (0 < size (handles s))%nat; [| lia].
      apply Nat.neq_0_lt_0, map_size_ne_0_lookup_2 with this. eauto. }
    exists s'. unfold exec.
    rewrite bind_run, (assign_destroy_copy _ _ _ _ _ Ht Ho Hguard Hnn).
    rewrite (bind_run_Some _ _ _ _ _ Hrun1).
    by rewrite (bind_run_Some _ _ _ _ _ Hrun2).
  - destruct Hadm as [[t Ht] Hr].
    destruct (counted_destroy this s Hs) as (s1 & Hrun1 & Hs1 & Hh1);
      [by exists t |].
    destruct (counted_construct this r s1 Hs1) as (s' & Hrun2 & Hs').
    { cbn [admissible]. rewrite Hh1, lookup_delete_eq.
      split; [done |]. split; [done |].
      rewrite map_size_delete_Some by eauto.
      pose proof (counted_size s Hs) as Hsz.
      assert (0 < size (handles s))%nat; [| lia].
      apply Nat.neq_0_lt_0, map_size_ne_0_lookup_2 with this. eauto. }
    exists s'. unfold exec.
    rewrite bind_run, (assign_raw_destroy_construct _ _ _ _ Ht).
    rewrite (bind_run_Some _ _ _ _ _ Hrun1).
    by rewrite (bind_run_Some _ _ _ _ _ Hrun2).
  - destruct (counted_destroy this s Hs Hadm) as (s' & Hrun & Hs' & _).
    exists s'. unfold exec. by rewrite Hrun.
Qed.

(** Every well-formed sequence of operations on non-null resources runs to
    completion and ends in a store with exact counts. *)
Lemma counted_run_all os s :
  counted s → admissible_all os s →
  ∃ s', exec (run_all os) s = Some s' ∧ counted s'.
Proof.
  revert s. induction os as [|o os IH]; intros s Hs Hadm.
  - by exists s.
  - destruct Hadm as [Ho Hrest].
    destruct (counted_step o s Hs Ho) as (s1 & Hrun1 & Hs1).
    rewrite Hrun1 in Hrest.
    destruct (IH s1 Hs1 Hrest) as (s' & Hrun & Hs').
    exists s'. split; [| done].
    unfold exec in *. cbn [run_all]. rewrite bind_run.
    destruct (run o s) as [[[] s1']|]; [| done].
    cbn in Hrun1. by simplify_eq.
Qed.

(** In a store with exact counts every live handle reports the number of
    live handles that point at its counter, that number is at least 1, and
    every live counter is pointed at (no counter has leaked). *)
Lemma counted_reads s :
  counted s →
  (∀ h t, handles s !! h = Some t →
     GetReferenceCount h s
     = Some (Z.of_nat (pointing (m_counter t) (handles s)), s)
     ∧ (1 ≤ pointing (m_counter t) (handles s))%nat)
  ∧ (∀ c k, counters s !! c = Some k →
       ∃ h t, handles s !! h = Some t ∧ m_counter t = c).
Proof.
  intros Hs. split.
  - intros h t Hh.
    destruct (counted_live s h t Hs Hh) as (k & Hk & Hget & Hrange).
    rewrite (GetReferenceCount_run _ _ _ _ Hh Hk), Hget.
    split; [done | lia].
  - intros c k Hk. pose proof (counted_cells s Hs c) as Hcell.
    rewrite Hk in Hcell. destruct Hcell as [Hpos _].
    unfold pointing in Hpos.
    destruct (map_size_ne_0_lookup_1
                (filter (λ p, m_counter p.2 = c) (handles s)))
      as [h [t Ht]]; [lia |].
    apply map_lookup_filter_Some in Ht as [Ht Hc]. by exists h, t.
Qed.

(** The sample program is well formed, runs to completion with exact
    counts, and deletes each of its three resources once. *)
Lemma sample_program_counted :
  admissible_all sample_program init_state
  ∧ (∃ s', exec (run_all sample_program) init_state = Some s' ∧ counted s')
  ∧ exec (run_all sample_program) init_state
    = Some {| handles := ∅; counters := ∅; freed := [5%N; 9%N; 7%N] |}.
Proof.
  assert (Hadm : admissible_all sample_program init_state)
    by (apply (bool_decide_unpack _); by vm_compute).
  split; [exact Hadm |]. split; [| reflexivity].
  apply counted_run_all; [apply counted_init | exact Hadm].
Qed.

(** ** The count and the number of handles *)

(** C1 (the code departs from it): the constructor and both assignment
    operators leave the count alone when the resource is null, the copy
    constructor increments it all the same.  After
    [SmartPointer<T> p; SmartPointer<T> q(p);] both handles hold [nullptr]
    and the shared count reads 1, where the claim requires 0; destroying [q]
    then brings the count to 0 and deletes the counter [p] still points at,
    so that destroying [p] afterwards reads a deleted object. *)
Theorem C1_copy_construct_from_null_increments :
  exec (construct 1 nullptr;; copy_construct 2 1) init_state = Some null_copied
  ∧ eval (GetPointer 1) null_copied = Some nullptr
  ∧ eval (GetPointer 2) null_copied = Some nullptr
  ∧ eval (GetReferenceCount 1) null_copied = Some 1
  ∧ eval (GetReferenceCount 2) null_copied = Some 1
  ∧ (counters <$> exec (destroy 2) null_copied) = Some ∅
  ∧ exec (destroy 2;; GetReferenceCount 1) null_copied = None
  ∧ exec (destroy 2;; destroy 1) null_copied = None.
Proof. repeat split; reflexivity. Qed.

(** * Laws of the operations *)

(** ** Increment and decrement *)

Lemma state_eta s :
  {| handles := handles s; counters := counters s; freed := freed s |} = s.
Proof. by destruct s. Qed.

Lemma counter_eta (k : PtrCounter.t) :
  {| PtrCounter.m_counter := PtrCounter.get k |} = k.
Proof. by destruct k. Qed.

Lemma decr_incr k : PtrCounter.valid k → PtrCounter.decr (PtrCounter.incr k) = k.
Proof.
  intros Hv. rewrite <-(counter_eta k) at 2.
  unfold PtrCounter.decr, PtrCounter.incr, PtrCounter.get, wrap. cbn.
  f_equal. rewrite Zminus_mod_idemp_l.
  replace (PtrCounter.m_counter k + 1 - 1) with (PtrCounter.m_counter k) by lia.
  by apply Z.mod_small.
Qed.

Lemma incr_decr k : PtrCounter.valid k → PtrCounter.incr (PtrCounter.decr k) = k.
Proof.
  intros Hv. rewrite <-(counter_eta k) at 2.
  unfold PtrCounter.decr, PtrCounter.incr, PtrCounter.get, wrap. cbn.
  f_equal. rewrite Zplus_mod_idemp_l.
  replace (PtrCounter.m_counter k - 1 + 1) with (PtrCounter.m_counter k) by lia.
  by apply Z.mod_small.
Qed.

(** X1: on every value of [unsigned int], wrap-around included, [operator--]
    undoes [operator++] and [operator++] undoes [operator--]. *)
Theorem X1_increment_decrement_inverse (k : PtrCounter.t) :
  PtrCounter.valid k →
  PtrCounter.decr (PtrCounter.incr k) = k
  ∧ PtrCounter.incr (PtrCounter.decr k) = k.
Proof. intros Hv. split; [by apply decr_incr | by apply incr_decr]. Qed.

Lemma X1_increment_decrement_inverse_witness :
  PtrCounter.decr (PtrCounter.incr {| PtrCounter.m_counter := 4294967295 |})
  = {| PtrCounter.m_counter := 4294967295 |}
  ∧ PtrCounter.incr (PtrCounter.decr PtrCounter.new) = PtrCounter.new.
Proof.
  split.
  - apply (X1_increment_decrement_inverse
             {| PtrCounter.m_counter := 4294967295 |}).
    unfold PtrCounter.valid, UINT_MODULUS. simpl. lia.
  - apply (X1_increment_decrement_inverse PtrCounter.new).
    unfold PtrCounter.valid, UINT_MODULUS. simpl. lia.
Defined.

(** X2: after [reset()], [n] increments make [get()] read [n mod 2^32] and
    [n] decrements make it read [(-n) mod 2^32]; [n] increments followed by
    [n] decrements read 0 again. *)
Theorem X2_count_after_reset (k : PtrCounter.t) (n : nat) :
  PtrCounter.get (Nat.iter n PtrCounter.incr (PtrCounter.reset k))
  = Z.of_nat n mod 2 ^ 32
  ∧ PtrCounter.get (Nat.iter n PtrCounter.decr (PtrCounter.reset k))
    = (- Z.of_nat n) mod 2 ^ 32
  ∧ PtrCounter.get
      (Nat.iter n PtrCounter.decr
         (Nat.iter n PtrCounter.incr (PtrCounter.reset k))) = 0.
Proof.
  assert (Hup : ∀ m, PtrCounter.get
                       (Nat.iter m PtrCounter.incr (PtrCounter.reset k))
                     = Z.of_nat m mod 2 ^ 32).
  { induction m as [|m IH]; [reflexivity |].
    rewrite Nat.iter_succ. unfold PtrCounter.get in *.
    cbn [PtrCounter.incr PtrCounter.m_counter]. rewrite IH. unfold wrap.
    change UINT_MODULUS with (2 ^ 32).
    rewrite Zplus_mod_idemp_l. f_equal. lia. }
  assert (Hdown : ∀ m, PtrCounter.get
                         (Nat.iter m PtrCounter.decr (PtrCounter.reset k))
                       = (- Z.of_nat m) mod 2 ^ 32).
  { induction m as [|m IH]; [reflexivity |].
    rewrite Nat.iter_succ. unfold PtrCounter.get in *.
    cbn [PtrCounter.decr PtrCounter.m_counter]. rewrite IH. unfold wrap.
    change UINT_MODULUS with (2 ^ 32).
    rewrite Zminus_mod_idemp_l. f_equal. lia. }
  split; [apply Hup |]. split; [apply Hdown |].
  assert (Hvalid : ∀ m, PtrCounter.valid
                          (Nat.iter m PtrCounter.incr (PtrCounter.reset k))).
  { intros [|m]; [cbn; unfold PtrCounter.valid, UINT_MODULUS; simpl; lia |].
    rewrite Nat.iter_succ. apply incr_valid. }
  induction n as [|n IH]; [reflexivity |].
  rewrite Nat.iter_succ_r, Nat.iter_succ.
  rewrite decr_incr by apply Hvalid. exact IH.
Qed.

(** ** Copies and round trips *)

(** X3: the copy constructor, run on a new object from a live handle whose
    counter is live, stores the operand's resource pointer and counter
    pointer, increments that counter whatever the resource is, deletes
    nothing and writes no other handle.  Afterwards both handles report the
    same pointer and the same count, the old count plus one modulo
    [2^32]. *)
Theorem X3_copy_construct (this other : loc) (o : SmartPointer.t)
    (w : PtrCounter.t) (s : state) :
  this ≠ other →
  handles s !! other = Some o →
  counters s !! m_counter o = Some w →
  ∃ s',
    copy_construct this other s = Some (tt, s')
    ∧ handles s' = <[this := o]> (handles s)
    ∧ counters s' = <[m_counter o := PtrCounter.incr w]> (counters s)
    ∧ freed s' = freed s
    ∧ GetPointer this s' = GetPointer other s'
    ∧ GetPointer this s' = Some (resource_ o, s')
    ∧ GetReferenceCount this s' = GetReferenceCount other s'
    ∧ GetReferenceCount this s'
      = Some ((PtrCounter.get w + 1) mod 2 ^ 32, s')
    ∧ (0 <= PtrCounter.get w < 2 ^ 32 - 1 →
       GetReferenceCount this s' = Some (PtrCounter.get w + 1, s')).
Proof.
  intros Hne Ho Hw. rewrite (copy_construct_run _ _ _ _ Ho), Hw.
  eexists. split; [reflexivity |].
  match goal with |- handles ?st = _ ∧ _ => set (s' := st) end.
  assert (Hthis : handles s' !! this = Some o) by apply lookup_insert_eq.
  assert (Hother : handles s' !! other = Some o)
    by (subst s'; cbn [handles]; by rewrite lookup_insert_ne).
  assert (Hk : counters s' !! m_counter o = Some (PtrCounter.incr w))
    by apply lookup_insert_eq.
  split; [done |]. split; [done |]. split; [done |].
  rewrite (GetPointer_run _ _ _ Hthis), (GetPointer_run _ _ _ Hother).
  rewrite (GetReferenceCount_run _ _ _ _ Hthis Hk).
  rewrite (GetReferenceCount_run _ _ _ _ Hother Hk).
  split; [done |]. split; [done |]. split; [done |]. split; [done |].
  intros Hrange. do 2 f_equal.
  unfold PtrCounter.get in *. cbn. apply wrap_small.
  unfold UINT_MODULUS. lia.
Qed.

Lemma X3_copy_construct_witness :
  ∃ s', copy_construct 2 1 sole_owner = Some (tt, s')
        ∧ GetPointer 2 s' = Some (5%N, s')
        ∧ GetReferenceCount 1 s' = Some (2, s').
Proof.
  destruct (X3_copy_construct 2 1
              {| resource_ := 5%N; m_counter := 1%positive |}
              {| PtrCounter.m_counter := 1 |} sole_owner
              ltac:(discriminate) eq_refl eq_refl)
    as (s' & Hrun & _ & _ & _ & _ & Hp & Heq & Hc & _).
  exists s'. split; [exact Hrun |]. split; [exact Hp |].
  rewrite <-Heq. exact Hc.
Defined.

(** X4: copying a handle into a new object and destroying the copy at once
    gives back the store exactly, provided the count was not 0.  When the
    count was 0 (a handle built from [nullptr]) the same round trip deletes
    the counter the original handle still points at. *)
Theorem X4_copy_then_destroy (this other : loc) (o : SmartPointer.t)
    (w : PtrCounter.t) (s : state) :
  handles s !! this = None →
  handles s !! other = Some o →
  counters s !! m_counter o = Some w →
  PtrCounter.valid w →
  (PtrCounter.get w ≠ 0 →
     (copy_construct this other;; destroy this) s = Some (tt, s))
  ∧ (PtrCounter.get w = 0 →
     (copy_construct this other;; destroy this) s
     = Some (tt, {| handles := handles s;
                    counters := delete (m_counter o) (counters s);
                    freed := if bool_decide (resource_ o = nullptr)
                             then freed s else resource_ o :: freed s |})).
Proof.
  intros Hfresh Ho Hw Hv.
  assert (Hrun : (copy_construct this other;; destroy this) s
    = if PtrCounter.get w =? 0
      then Some (tt, {| handles := handles s;
                        counters := delete (m_counter o) (counters s);
                        freed := if bool_decide (resource_ o = nullptr)
                                 then freed s else resource_ o :: freed s |})
      else Some (tt, s)).
  { rewrite bind_run, (copy_construct_run _ _ _ _ Ho), Hw.
    erewrite destroy_run by apply lookup_insert_eq.
    unfold release_step. cbn [handles counters freed].
    rewrite lookup_insert_eq, (decr_incr _ Hv).
    rewrite (delete_insert_eq (handles s)), (delete_id _ _ Hfresh).
    destruct (PtrCounter.get w =? 0); cbn [handles counters freed].
    - by rewrite delete_insert_eq.
    - rewrite insert_insert_eq, (insert_id _ _ _ Hw). by rewrite state_eta. }
  rewrite Hrun. split; intros Hz.
  - by rewrite (proj2 (Z.eqb_neq _ _) Hz).
  - by rewrite (proj2 (Z.eqb_eq _ _) Hz).
Qed.

Lemma X4_copy_then_destroy_witness :
  (copy_construct 2 1;; destroy 2) sole_owner = Some (tt, sole_owner)
  ∧ (counters <$> exec (copy_construct 2 1;; destroy 2) null_handle) = Some ∅.
Proof.
  split.
  - apply (proj1 (X4_copy_then_destroy 2 1
                    {| resource_ := 5%N; m_counter := 1%positive |}
                    {| PtrCounter.m_counter := 1 |} sole_owner
                    eq_refl eq_refl eq_refl
                    ltac:(unfold PtrCounter.valid, UINT_MODULUS; simpl; lia))).
    discriminate.
  - unfold exec.
    rewrite (proj2 (X4_copy_then_destroy 2 1
                      {| resource_ := nullptr; m_counter := 1%positive |}
                      PtrCounter.new null_handle
                      eq_refl eq_refl eq_refl
                      ltac:(unfold PtrCounter.valid, UINT_MODULUS; simpl; lia))
               eq_refl).
    reflexivity.
Defined.

(** X5: a handle built on a new object and destroyed at once.  With a
    non-null pointer the store is as before except that the resource has
    been deleted, once; no counter is left behind.  With [nullptr] nothing
    is deleted and the counter stays allocated, holding [2^32 - 1]. *)
Theorem X5_construct_then_destroy (this : loc) (r : ptr) (s : state) :
  handles s !! this = None →
  (r ≠ nullptr →
     (construct this r;; destroy this) s
     = Some (tt, {| handles := handles s;
                    counters := counters s;
                    freed := r :: freed s |}))
  ∧ (r = nullptr →
     (construct this r;; destroy this) s
     = Some (tt, {| handles := handles s;
                    counters :=
                      <[fresh (dom (counters s)) :=
                          {| PtrCounter.m_counter := 2 ^ 32 - 1 |}]>
                        (counters s);
                    freed := freed s |})).
Proof.
  intros Hfresh.
  pose proof (fresh_counter_None (counters s)) as Hc.
  assert (Hrun : ∀ k,
    (if bool_decide (r ≠ nullptr)
     then PtrCounter.incr PtrCounter.new else PtrCounter.new) = k →
    (construct this r;; destroy this) s
    = match release_step
              {| resource_ := r; m_counter := fresh (dom (counters s)) |}
              {| handles := <[this := {| resource_ := r;
                                         m_counter := fresh (dom (counters s)) |}]>
                              (handles s);
                 counters := <[fresh (dom (counters s)) := k]> (counters s);
                 freed := freed s |} with
      | Some s1 => Some (tt, {| handles := handles s;
                                counters := counters s1;
                                freed := freed s1 |})
      | None => None
      end).
  { intros k Hk. rewrite bind_run, construct_run. cbn zeta. rewrite Hk.
    erewrite destroy_run by apply lookup_insert_eq.
    cbn [handles]. by rewrite delete_insert_eq, (delete_id _ _ Hfresh). }
  split; intros Hr.
  - rewrite (Hrun (PtrCounter.incr PtrCounter.new))
      by by rewrite bool_decide_eq_true_2.
    unfold release_step. cbn [handles counters freed m_counter resource_].
    rewrite lookup_insert_eq.
    replace (PtrCounter.get (PtrCounter.decr (PtrCounter.incr PtrCounter.new))
             =? 0) with true by reflexivity.
    rewrite bool_decide_eq_false_2 by done. cbn [counters freed].
    by rewrite delete_insert_eq, (delete_id _ _ Hc).
  - rewrite (Hrun PtrCounter.new)
      by (rewrite bool_decide_eq_false_2; [done | tauto]).
    unfold release_step. cbn [handles counters freed m_counter resource_].
    rewrite lookup_insert_eq.
    replace (PtrCounter.get (PtrCounter.decr PtrCounter.new) =? 0)
      with false by reflexivity.
    cbn [counters freed]. by rewrite insert_insert_eq.
Qed.

Lemma X5_construct_then_destroy_witness :
  (construct 1 5;; destroy 1) init_state
  = Some (tt, {| handles := ∅; counters := ∅; freed := [5%N] |}).
Proof.
  apply (proj1 (X5_construct_then_destroy 1 5 init_state eq_refl)).
  discriminate.
Defined.

(** X6: on a live handle, assignment of a raw pointer runs exactly as the
    destructor followed by the constructor on the same object. *)
Theorem X6_assign_raw_is_destroy_construct (this : loc) (t : SmartPointer.t)
    (r : ptr) (s : state) :
  handles s !! this = Some t →
  assign_raw this r s = (destroy this;; construct this r;; mret this) s
  ∧ exec (assign_raw this r) s = exec (destroy this;; construct this r) s.
Proof.
  intros Ht.
  assert (H : assign_raw this r s
              = (destroy this;; construct this r;; mret this) s)
    by by apply (assign_raw_destroy_construct this t).
  split; [exact H |].
  unfold exec. rewrite H, !bind_run.
  destruct (destroy this s) as [[[] s1]|]; [| done].
  rewrite bind_run. by destruct (construct this r s1) as [[[] s2]|].
Qed.

Lemma X6_assign_raw_is_destroy_construct_witness :
  assign_raw 2 9 two_owners = (destroy 2;; construct 2 9;; mret 2%positive) two_owners.
Proof.
  apply (X6_assign_raw_is_destroy_construct 2
           {| resource_ := 5%N; m_counter := 1%positive |} 9%N two_owners
           eq_refl).
Defined.

(** X7: on live handles that do not hold the same (resource, counter) pair,
    and with a non-null operand, [operator=(const SmartPointer&)] runs
    exactly as the destructor followed by the copy constructor on the same
    object. *)
Theorem X7_assign_is_destroy_copy (this other : loc) (t o : SmartPointer.t)
    (s : state) :
  handles s !! this = Some t →
  handles s !! other = Some o →
  ¬ (resource_ t = resource_ o ∧ m_counter t = m_counter o) →
  resource_ o ≠ nullptr →
  assign this other s = (destroy this;; copy_construct this other;; mret this) s
  ∧ exec (assign this other) s
    = exec (destroy this;; copy_construct this other) s.
Proof.
  intros Ht Ho Hguard Hnn.
  assert (H : assign this other s
              = (destroy this;; copy_construct this other;; mret this) s)
    by by apply (assign_destroy_copy this other t o).
  split; [exact H |].
  unfold exec. rewrite H, !bind_run.
  destruct (destroy this s) as [[[] s1]|]; [| done].
  rewrite bind_run. by destruct (copy_construct this other s1) as [[[] s2]|].
Qed.

Lemma X7_assign_is_destroy_copy_witness :
  assign 3 1 three_handles
  = (destroy 3;; copy_construct 3 1;; mret 3%positive) three_handles.
Proof.
  apply (X7_assign_is_destroy_copy 3 1
           {| resource_ := 7%N; m_counter := 3%positive |}
           {| resource_ := 5%N; m_counter := 1%positive |} three_handles
           eq_refl eq_refl ltac:(intros [? ?]; discriminate)
           ltac:(discriminate)).
Defined.

(** ** Ownership of resources *)

Lemma pointing_pos_inv c (m : gmap loc SmartPointer.t) :
  (0 < pointing c m)%nat → ∃ h t, m !! h = Some t ∧ m_counter t = c.
Proof.
  unfold pointing. intros Hpos.
  destruct (map_size_ne_0_lookup_1 (filter (λ p, m_counter p.2 = c) m))
    as [h [t Ht]]; [lia |].
  apply map_lookup_filter_Some in Ht as [Ht Hc]. by exists h, t.
Qed.

Lemma unowned_not_known r s : unowned r s → ¬ known r s.
Proof.
  intros [Hf Hh] [Hin|(h & t & Ht & Hr)]; [done |].
  by apply (Hh h t Ht).
Qed.

Lemma not_known_unowned r s : ¬ known r s → unowned r s.
Proof.
  intros Hk. split.
  - intros Hin. apply Hk. by left.
  - intros h t Ht Hr. apply Hk. right. by exists h, t.
Qed.

Lemma owned_init : owned init_state.
Proof.
  split.
  - apply counted_init.
  - intros h t Hh. cbn [init_state handles] in Hh.
    by rewrite lookup_empty in Hh.
  - apply NoDup_nil_2.
  - intros h h' t t' Hh. cbn [init_state handles] in Hh.
    by rewrite lookup_empty in Hh.
Qed.

(** What the destructor deletes in a store with exact counts. *)
Lemma destroy_freed this t s s' :
  counted s → handles s !! this = Some t →
  destroy this s = Some (tt, s') →
  handles s' = delete this (handles s)
  ∧ (pointing (m_counter t) (handles s) = 1%nat →
     freed s' = resource_ t :: freed s
     ∧ counters s' = delete (m_counter t) (counters s))
  ∧ (pointing (m_counter t) (handles s) ≠ 1%nat →
     freed s' = freed s
     ∧ counters s'
       = <[m_counter t :=
             {| PtrCounter.m_counter :=
                  Z.of_nat (pointing (m_counter t) (handles s)) - 1 |}]>
           (counters s)).
Proof.
  intros Hs Ht Hrun. rewrite (destroy_run _ _ _ Ht) in Hrun.
  destruct (counted_live s this t Hs Ht) as (k & Hk & Hget & Hrange).
  pose proof (counted_nonnull s Hs this t Ht) as Hnn.
  unfold release_step in Hrun. rewrite Hk in Hrun.
  assert (Hdec : PtrCounter.decr k
                 = {| PtrCounter.m_counter := PtrCounter.get k - 1 |}).
  { unfold PtrCounter.decr, PtrCounter.get in *. f_equal.
    apply wrap_small. lia. }
  rewrite Hdec in Hrun. cbn [PtrCounter.get PtrCounter.m_counter] in Hrun.
  destruct (PtrCounter.get k - 1 =? 0) eqn:Hz; simplify_eq;
    cbn [handles counters freed].
  - apply Z.eqb_eq in Hz. split; [done |]. split; [| lia].
    intros _. by rewrite bool_decide_eq_false_2.
  - apply Z.eqb_neq in Hz. split; [done |]. split; [lia |].
    intros _. by rewrite Hget.
Qed.

Lemma owned_destroy this s :
  owned s → is_Some (handles s !! this) →
  ∃ s', destroy this s = Some (tt, s') ∧ owned s'
        ∧ handles s' = delete this (handles s)
        ∧ (∀ r, known r s' ↔ known r s).
Proof.
  intros Hs [t Ht]. pose proof (owned_counted s Hs) as Hc.
  destruct (counted_destroy this s Hc) as (s' & Hrun & Hc' & Hh');
    [by exists t |].
  destruct (destroy_freed this t s s' Hc Ht Hrun) as (_ & Hlast & Hmore).
  pose proof (pointing_delete (m_counter t) this t (handles s) Ht) as Hp.
  unfold here in Hp. rewrite decide_True in Hp by done.
  exists s'. split; [exact Hrun |].
  assert (Hsub : ∀ h t', handles s' !! h = Some t' →
                         h ≠ this ∧ handles s !! h = Some t').
  { intros h t' Hh. rewrite Hh' in Hh.
    apply lookup_delete_Some in Hh as [Hne Hh]. split; [congruence | done]. }
  destruct (decide (pointing (m_counter t) (handles s) = 1%nat)) as [H1|H1].
  - destruct (Hlast H1) as [Hf _].
    assert (Hother : ∀ h t', handles s' !! h = Some t' →
                             resource_ t' ≠ resource_ t).
    { intros h t' Hh Hr. destruct (Hsub h t' Hh) as [Hne Hh0].
      apply (owned_pairs s Hs h this t' t Hh0 Ht) in Hr.
      rewrite Hh' in Hh. apply pointing_pos in Hh. rewrite Hr in Hh. lia. }
    split; [split |]; [done | | | | split; [done |]].
    + intros h t' Hh. destruct (Hsub h t' Hh) as [Hne Hh0].
      rewrite Hf. apply not_elem_of_cons. split; [by apply (Hother h) |].
      by apply (owned_alive s Hs h).
    + rewrite Hf. apply NoDup_cons. split; [| apply (owned_once s Hs)].
      by apply (owned_alive s Hs this).
    + intros h h' t1 t2 Hh1 Hh2.
      apply (owned_pairs s Hs h h'); by apply Hsub.
    + intros r. unfold known, held. rewrite Hf, elem_of_cons. split.
      * intros [[->|Hin]|(h & t' & Hh & Hr)].
        -- right. by exists this, t.
        -- by left.
        -- right. exists h, t'. split; [by apply Hsub | done].
      * intros [Hin|(h & t' & Hh & Hr)]; [by left; right |].
        destruct (decide (h = this)) as [->|Hne].
        -- left; left. by simplify_eq.
        -- right. exists h, t'. split; [| done].
           by rewrite Hh', lookup_delete_ne.
  - destruct (Hmore H1) as [Hf _].
    split; [split |]; [done | | | | split; [done |]].
    + intros h t' Hh. rewrite Hf. apply (owned_alive s Hs h).
      by apply Hsub.
    + rewrite Hf. apply (owned_once s Hs).
    + intros h h' t1 t2 Hh1 Hh2.
      apply (owned_pairs s Hs h h'); by apply Hsub.
    + intros r. unfold known, held. rewrite Hf. split.
      * intros [Hin|(h & t' & Hh & Hr)]; [by left |].
        right. exists h, t'. split; [by apply Hsub | done].
      * intros [Hin|(h & t' & Hh & Hr)]; [by left |].
        right. destruct (decide (h = this)) as [->|Hne].
        -- simplify_eq.
           pose proof (pointing_pos _ _ _ Ht) as Hpos.
           destruct (pointing_pos_inv (m_counter t)
                       (delete this (handles s)))
             as (h' & t' & Hh'' & Hc''); [lia |].
           exists h', t'. split; [by rewrite Hh' |].
           apply lookup_delete_Some in Hh'' as [_ Hh''].
           by apply (owned_pairs s Hs h' this t' t Hh'' Ht).
        -- exists h, t'. split; [| done].
           by rewrite Hh', lookup_delete_ne.
Qed.

Lemma owned_construct this r s :
  owned s → admissible (Construct this r) s → unowned r s →
  ∃ s', construct this r s = Some (tt, s') ∧ owned s'
        ∧ (∀ r0, known r0 s' ↔ known r0 s ∨ r0 = r).
Proof.
  intros Hs Hadm [Hnf Hnh]. pose proof (owned_counted s Hs) as Hc.
  destruct (counted_construct this r s Hc Hadm) as (s' & Hrun & Hc').
  destruct Hadm as (Hfresh & Hr & Hsz).
  exists s'. split; [exact Hrun |].
  rewrite construct_run in Hrun. cbn zeta in Hrun.
  pose proof (fresh_counter_None (counters s)) as Hnew.
  set (c := fresh (dom (counters s))) in *.
  assert (Hnone : ∀ h t, handles s !! h = Some t → m_counter t ≠ c).
  { intros h t Ht Heq. apply pointing_pos in Ht. rewrite Heq in Ht.
    pose proof (counted_cells s Hc c) as Hcell. rewrite Hnew in Hcell.
    cbn in Hcell. lia. }
  simplify_eq. split; [split |]; cbn [handles counters freed].
  - done.
  - intros h t Ht. apply lookup_insert_Some in Ht as [[_ <-]|[_ Ht]];
      [done | by apply (owned_alive s Hs h)].
  - apply (owned_once s Hs).
  - intros h h' t t' Ht Ht'.
    apply lookup_insert_Some in Ht as [[_ <-]|[_ Ht]];
      apply lookup_insert_Some in Ht' as [[_ <-]|[_ Ht']]; cbn.
    + done.
    + split; intros Heq.
      * exfalso. by apply (Hnh h' t' Ht').
      * exfalso. by apply (Hnone h' t' Ht').
    + split; intros Heq.
      * exfalso. by apply (Hnh h t Ht).
      * exfalso. by apply (Hnone h t Ht).
    + by apply (owned_pairs s Hs h h').
  - intros r0. unfold known, held. cbn [handles freed]. split.
    + intros [Hin|(h & t & Ht & Hr0)]; [by left; left |].
      apply lookup_insert_Some in Ht as [[_ <-]|[_ Ht]]; [by right |].
      left; right. by exists h, t.
    + intros [[Hin|(h & t & Ht & Hr0)]| ->].
      * by left.
      * right. exists h, t. split; [| done].
        rewrite lookup_insert_ne; [done |]. intros ->. congruence.
      * right. eexists this, _. split; [apply lookup_insert_eq | done].
Qed.

Lemma owned_copy_construct this other s :
  owned s → admissible (CopyConstruct this other) s →
  ∃ s', copy_construct this other s = Some (tt, s') ∧ owned s'
        ∧ (∀ r0, known r0 s' ↔ known r0 s).
Proof.
  intros Hs Hadm. pose proof (owned_counted s Hs) as Hc.
  destruct (counted_copy_construct this other s Hc Hadm)
    as (s' & Hrun & Hc').
  destruct Hadm as (Hfresh & [o Ho] & Hsz).
  exists s'. split; [exact Hrun |].
  rewrite (copy_construct_run _ _ _ _ Ho) in Hrun.
  destruct (counters s !! m_counter o) as [w|]; [| done].
  assert (Hfrom : ∀ h t, <[this := o]> (handles s) !! h = Some t →
                         ∃ h0, handles s !! h0 = Some t).
  { intros h t Ht. apply lookup_insert_Some in Ht as [[_ <-]|[_ Ht]];
      eauto. }
  simplify_eq. split; [split |]; cbn [handles counters freed].
  - done.
  - intros h t Ht. destruct (Hfrom h t Ht) as [h0 Ht0].
    by apply (owned_alive s Hs h0).
  - apply (owned_once s Hs).
  - intros h h' t t' Ht Ht'.
    destruct (Hfrom h t Ht) as [h0 Ht0].
    destruct (Hfrom h' t' Ht') as [h0' Ht0'].
    by apply (owned_pairs s Hs h0 h0').
  - intros r0. unfold known, held. cbn [handles freed]. split.
    + intros [Hin|(h & t & Ht & Hr0)]; [by left |].
      right. destruct (Hfrom h t Ht) as [h0 Ht0]. by exists h0, t.
    + intros [Hin|(h & t & Ht & Hr0)]; [by left |].
      right. exists h, t. split; [| done].
      rewrite lookup_insert_ne; [done |]. intros ->. congruence.
Qed.

Lemma delete_admits_new this t (m : gmap loc SmartPointer.t) :
  m !! this = Some t → Z.of_nat (size m) < UINT_MODULUS →
  Z.of_nat (size (delete this m)) + 1 < UINT_MODULUS.
Proof.
  intros Ht Hsz. rewrite map_size_delete_Some by eauto.
  assert (0 < size m)%nat; [| lia].
  apply Nat.neq_0_lt_0, map_size_ne_0_lookup_2 with this. eauto.
Qed.

(** One well-formed operation keeps ownership sound and accounts for every
    resource: what is known afterwards is what was known before together
    with what the operation handed over. *)
Lemma owned_step o s :
  owned s → well_formed o s →
  ∃ s', exec (run o) s = Some s' ∧ owned s'
        ∧ (∀ r, known r s' ↔ known r s ∨ r ∈ hands_over o).
Proof.
  intros Hs [Hadm Hnew]. pose proof (owned_counted s Hs) as Hc.
  destruct o as [this r|this other|this other|this r|this];
    cbn [run hands_over] in *.
  - rewrite Forall_singleton in Hnew.
    destruct (owned_construct this r s Hs Hadm Hnew) as (s' & Hrun & Hs' & Hk).
    exists s'. unfold exec. rewrite Hrun. split; [done |]. split; [done |].
    intros r0. rewrite Hk. by rewrite list_elem_of_singleton.
  - destruct (owned_copy_construct this other s Hs Hadm)
      as (s' & Hrun & Hs' & Hk).
    exists s'. unfold exec. rewrite Hrun. split; [done |]. split; [done |].
    intros r0. rewrite Hk, elem_of_nil. tauto.
  - destruct Hadm as [[t Ht] [o Ho]].
    destruct (decide (resource_ t = resource_ o ∧ m_counter t = m_counter o))
      as [[Hr Hcc]|Hguard].
    { exists s. unfold exec.
      rewrite bind_run, (assign_guard _ _ _ _ _ Ht Ho Hr Hcc).
      split; [done |]. split; [done |].
      intros r0. rewrite elem_of_nil. tauto. }
    assert (Hne : other ≠ this).
    { intros ->. rewrite Ht in Ho. simplify_eq. tauto. }
    pose proof (counted_nonnull s Hc other o Ho) as Hnn.
    destruct (owned_destroy this s Hs) as (s1 & Hrun1 & Hs1 & Hh1 & Hk1);
      [by exists t |].
    destruct (owned_copy_construct this other s1 Hs1)
      as (s' & Hrun2 & Hs' & Hk2).
    { cbn [admissible]. rewrite Hh1, lookup_delete_eq.
      rewrite lookup_delete_ne by done.
      split; [done |]. split; [by exists o |].
      apply (delete_admits_new this t); [done | apply (counted_size s Hc)]. }
    exists s'. unfold exec.
    rewrite bind_run, (assign_destroy_copy _ _ _ _ _ Ht Ho Hguard Hnn).
    rewrite (bind_run_Some _ _ _ _ _ Hrun1).
    rewrite (bind_run_Some _ _ _ _ _ Hrun2).
    split; [done |]. split; [done |].
    intros r0. rewrite Hk2, Hk1, elem_of_nil. tauto.
  - destruct Hadm as [[t Ht] Hr]. rewrite Forall_singleton in Hnew.
    destruct (owned_destroy this s Hs) as (s1 & Hrun1 & Hs1 & Hh1 & Hk1);
      [by exists t |].
    destruct (owned_construct this r s1 Hs1) as (s' & Hrun2 & Hs' & Hk2).
    { cbn [admissible]. rewrite Hh1, lookup_delete_eq.
      split; [done |]. split; [done |].
      apply (delete_admits_new this t); [done | apply (counted_size s Hc)]. }
    { apply not_known_unowned. rewrite Hk1. by apply unowned_not_known. }
    exists s'. unfold exec.
    rewrite bind_run, (assign_raw_destroy_construct _ _ _ _ Ht).
    rewrite (bind_run_Some _ _ _ _ _ Hrun1).
    rewrite (bind_run_Some _ _ _ _ _ Hrun2).
    split; [done |]. split; [done |].
    intros r0. rewrite Hk2, Hk1. by rewrite list_elem_of_singleton.
  - destruct (owned_destroy this s Hs Hadm) as (s' & Hrun & Hs' & _ & Hk).
    exists s'. unfold exec. rewrite Hrun. split; [done |]. split; [done |].
    intros r0. rewrite Hk, elem_of_nil. tauto.
Qed.

Lemma owned_run_all os s :
  owned s → well_formed_all os s →
  ∃ s', exec (run_all os) s = Some s' ∧ owned s'
        ∧ (∀ r, known r s' ↔ known r s ∨ r ∈ os ≫= hands_over).
Proof.
  revert s. induction os as [|o os IH]; intros s Hs Hwf.
  - exists s. split; [done |]. split; [done |].
    intros r. cbn. rewrite elem_of_nil. tauto.
  - destruct Hwf as [Ho Hrest].
    destruct (owned_step o s Hs Ho) as (s1 & Hrun1 & Hs1 & Hk1).
    rewrite Hrun1 in Hrest.
    destruct (IH s1 Hs1 Hrest) as (s' & Hrun & Hs' & Hk).
    exists s'. split; [| split; [done |]].
    + unfold exec in *. cbn [run_all]. rewrite bind_run.
      destruct (run o s) as [[[] s1']|]; [| done].
      cbn in Hrun1. by simplify_eq.
    + intros r. rewrite Hk, Hk1. cbn. rewrite elem_of_app. tauto.
Qed.

Lemma sample_program_well_formed : well_formed_all sample_program init_state.
Proof. apply (bool_decide_unpack _). by vm_compute. Qed.

Lemma sharing_program_well_formed :
  well_formed_all sharing_program init_state.
Proof. apply (bool_decide_unpack _). by vm_compute. Qed.

Lemma sharing_program_admissible : admissible_all sharing_program init_state.
Proof. apply (bool_decide_unpack _). by vm_compute. Qed.

Lemma counted_two_owners : counted two_owners.
Proof.
  destruct (counted_run_all [Construct 1 5; CopyConstruct 2 1] init_state
              counted_init) as (s' & Hrun & Hs').
  { apply (bool_decide_unpack _). by vm_compute. }
  change (exec (run_all [Construct 1 5; CopyConstruct 2 1]) init_state)
    with (Some two_owners) in Hrun.
  by simplify_eq.
Qed.

(** X8: take a program of constructions, copies, assignments and
    destructions in which constructors run on objects that are not live
    handles while fewer than [2^32 - 1] handles are live, the other
    operations run on live handles, and every raw pointer handed over is
    non-null.  Started in a store with exact counts, every operation of it
    finds the handles and the counters it accesses live, and at the end
    every live handle holds a non-null pointer and reports as count the
    number of live handles that point at its counter, and every live
    counter is pointed at by some live handle.  This is about counters
    only: a raw pointer handed over while a handle holds it is still
    deleted twice (X13, X14); X10 adds the condition that excludes it. *)
Theorem X8_exact_counts (os : list op) (s : state) :
  counted s → admissible_all os s →
  ∃ s',
    exec (run_all os) s = Some s'
    ∧ (∀ h t, handles s' !! h = Some t →
         resource_ t ≠ nullptr
         ∧ GetReferenceCount h s'
           = Some (Z.of_nat (pointing (m_counter t) (handles s')), s')
         ∧ (1 ≤ pointing (m_counter t) (handles s'))%nat)
    ∧ (∀ c k, counters s' !! c = Some k →
         ∃ h t, handles s' !! h = Some t ∧ m_counter t = c).
Proof.
  intros Hs Hadm.
  destruct (counted_run_all os s Hs Hadm) as (s' & Hrun & Hs').
  destruct (counted_reads s' Hs') as [Hread Hleak].
  exists s'. split; [exact Hrun |]. split; [| exact Hleak].
  intros h t Ht. split; [by apply (counted_nonnull s' Hs' h) |].
  by apply Hread.
Qed.

Lemma X8_exact_counts_witness :
  ∃ s', exec (run_all sharing_program) init_state = Some s'
        ∧ GetReferenceCount 1 s' = Some (3, s')
        ∧ GetReferenceCount 3 s' = Some (3, s').
Proof.
  destruct (X8_exact_counts sharing_program init_state counted_init
              sharing_program_admissible) as (s' & Hrun & Hread & _).
  exists s'. split; [exact Hrun |].
  vm_compute in Hrun. injection Hrun as <-.
  destruct (Hread 1%positive {| resource_ := 5%N; m_counter := 1%positive |}
              eq_refl) as (_ & H1 & _).
  destruct (Hread 3%positive {| resource_ := 5%N; m_counter := 1%positive |}
              eq_refl) as (_ & H3 & _).
  split; [exact H1 | exact H3].
Defined.

(** X9: in a store with exact counts the destructor deletes the resource
    and the counter exactly when the handle is the only one pointing at its
    counter; otherwise nothing is deleted and the remaining handles on that
    counter report one less. *)
Theorem X9_destroy_last_owner (this : loc) (t : SmartPointer.t) (s : state) :
  counted s → handles s !! this = Some t →
  ∃ s',
    destroy this s = Some (tt, s')
    ∧ (pointing (m_counter t) (handles s) = 1%nat →
       freed s' = resource_ t :: freed s
       ∧ counters s' !! m_counter t = None)
    ∧ (pointing (m_counter t) (handles s) ≠ 1%nat →
       freed s' = freed s
       ∧ ∀ h t', h ≠ this → handles s !! h = Some t' →
           m_counter t' = m_counter t →
           GetReferenceCount h s'
           = Some (Z.of_nat (pointing (m_counter t) (handles s)) - 1, s')).
Proof.
  intros Hs Ht.
  destruct (counted_destroy this s Hs) as (s' & Hrun & _ & _);
    [by exists t |].
  destruct (destroy_freed this t s s' Hs Ht Hrun) as (Hh & Hlast & Hmore).
  exists s'. split; [exact Hrun |]. split.
  - intros H1. destruct (Hlast H1) as [Hf Hc]. split; [exact Hf |].
    rewrite Hc. apply lookup_delete_eq.
  - intros H1. destruct (Hmore H1) as [Hf Hc]. split; [exact Hf |].
    intros h t' Hne Hh0 Hsame.
    rewrite (GetReferenceCount_run h t'
               {| PtrCounter.m_counter :=
                    Z.of_nat (pointing (m_counter t) (handles s)) - 1 |});
      [done | by rewrite Hh, lookup_delete_ne |].
    rewrite Hc, Hsame. apply lookup_insert_eq.
Qed.

Lemma X9_destroy_last_owner_witness :
  ∃ s', destroy 2 two_owners = Some (tt, s')
        ∧ freed s' = []
        ∧ GetReferenceCount 1 s' = Some (1, s').
Proof.
  destruct (X9_destroy_last_owner 2
              {| resource_ := 5%N; m_counter := 1%positive |} two_owners
              counted_two_owners eq_refl)
    as (s' & Hrun & _ & Hmore).
  exists s'. split; [exact Hrun |].
  destruct (Hmore ltac:(by vm_compute)) as [Hf Hc].
  split; [exact Hf |].
  apply (Hc 1%positive {| resource_ := 5%N; m_counter := 1%positive |});
    [discriminate | reflexivity | reflexivity].
Defined.

(** X10: a well-formed program, each raw pointer of which comes fresh from
    [new], never deletes a resource twice and never leaves a live handle on
    a deleted resource; two live handles hold the same resource exactly when
    they share the counter. *)
Theorem X10_no_double_delete (os : list op) (s : state) :
  owned s → well_formed_all os s →
  ∃ s',
    exec (run_all os) s = Some s'
    ∧ NoDup (freed s')
    ∧ (∀ h t, handles s' !! h = Some t → resource_ t ∉ freed s')
    ∧ (∀ h h' t t',
         handles s' !! h = Some t → handles s' !! h' = Some t' →
         (resource_ t = resource_ t' ↔ m_counter t = m_counter t')).
Proof.
  intros Hs Hwf.
  destruct (owned_run_all os s Hs Hwf) as (s' & Hrun & Hs' & _).
  exists s'. split; [exact Hrun |].
  split; [apply (owned_once s' Hs') |].
  split; [apply (owned_alive s' Hs') | apply (owned_pairs s' Hs')].
Qed.

Lemma X10_no_double_delete_witness :
  ∃ s',
    exec (run_all sample_program) init_state = Some s'
    ∧ NoDup (freed s')
    ∧ (∀ h t, handles s' !! h = Some t → resource_ t ∉ freed s')
    ∧ (∀ h h' t t',
         handles s' !! h = Some t → handles s' !! h' = Some t' →
         (resource_ t = resource_ t' ↔ m_counter t = m_counter t')).
Proof.
  exact (X10_no_double_delete sample_program init_state owned_init
           sample_program_well_formed).
Defined.

(** X11: a well-formed program loses no resource: at the end the resources
    that are deleted or still held are those that were so at the start
    together with those the program handed over.  Once no handle is left,
    no counter is left either and every one of these resources has been
    deleted. *)
Theorem X11_every_resource_accounted (os : list op) (s : state) :
  owned s → well_formed_all os s →
  ∃ s',
    exec (run_all os) s = Some s'
    ∧ (∀ r, r ∈ freed s' ∨ held r s'
            ↔ (r ∈ freed s ∨ held r s) ∨ r ∈ os ≫= hands_over)
    ∧ (handles s' = ∅ →
       counters s' = ∅
       ∧ ∀ r, r ∈ freed s'
              ↔ (r ∈ freed s ∨ held r s) ∨ r ∈ os ≫= hands_over).
Proof.
  intros Hs Hwf.
  destruct (owned_run_all os s Hs Hwf) as (s' & Hrun & Hs' & Hk).
  exists s'. split; [exact Hrun |]. split; [exact Hk |].
  intros Hempty. split.
  - apply map_empty. intros c.
    pose proof (counted_cells s' (owned_counted s' Hs') c) as Hcell.
    destruct (counters s' !! c) as [k|]; [| done].
    destruct Hcell as [Hpos _]. apply pointing_pos_inv in Hpos
      as (h & t & Ht & _).
    by rewrite Hempty, lookup_empty in Ht.
  - intros r. pose proof (Hk r) as Hr. unfold known in Hr. rewrite <-Hr.
    unfold held. split; [by left |].
    intros [Hin|(h & t & Ht & _)]; [done |].
    by rewrite Hempty, lookup_empty in Ht.
Qed.

Lemma X11_every_resource_accounted_witness :
  ∃ s',
    exec (run_all sample_program) init_state = Some s'
    ∧ (∀ r, r ∈ freed s' ∨ held r s'
            ↔ (r ∈ freed init_state ∨ held r init_state)
              ∨ r ∈ sample_program ≫= hands_over)
    ∧ (handles s' = ∅ →
       counters s' = ∅
       ∧ ∀ r, r ∈ freed s'
              ↔ (r ∈ freed init_state ∨ held r init_state)
                ∨ r ∈ sample_program ≫= hands_over).
Proof.
  exact (X11_every_resource_accounted sample_program init_state owned_init
           sample_program_well_formed).
Defined.

(** X12: after a well-formed program both dereference operators are
    defined on every live handle: [operator*] yields the resource the handle
    holds, which is neither null nor deleted, and [operator->] yields the
    same pointer as [GetPointer]. *)
Theorem X12_dereference_defined (os : list op) (s : state) :
  owned s → well_formed_all os s →
  ∃ s',
    exec (run_all os) s = Some s'
    ∧ ∀ h t, handles s' !! h = Some t →
        operator_star h s' = Some (resource_ t, s')
        ∧ operator_arrow h s' = Some (resource_ t, s')
        ∧ operator_arrow h s' = GetPointer h s'.
Proof.
  intros Hs Hwf.
  destruct (owned_run_all os s Hs Hwf) as (s' & Hrun & Hs' & _).
  exists s'. split; [exact Hrun |].
  intros h t Ht.
  pose proof (counted_nonnull s' (owned_counted s' Hs') h t Ht) as Hnn.
  pose proof (owned_alive s' Hs' h t Ht) as Hlive.
  unfold operator_star, operator_arrow.
  rewrite !bind_run, (load_run _ _ _ Ht), (GetPointer_run _ _ _ Ht).
  split; [| done].
  unfold deref_resource. rewrite bool_decide_eq_false_2; [done | tauto].
Qed.

Lemma X12_dereference_defined_witness :
  ∃ s',
    exec (run_all sharing_program) init_state = Some s'
    ∧ ∀ h t, handles s' !! h = Some t →
        operator_star h s' = Some (resource_ t, s')
        ∧ operator_arrow h s' = Some (resource_ t, s')
        ∧ operator_arrow h s' = GetPointer h s'.
Proof.
  exact (X12_dereference_defined sharing_program init_state owned_init
           sharing_program_well_formed).
Defined.

(** ** Misuse of raw pointers *)

Lemma bind_assoc_run {A B C} (m : M A) (f : A → M B) (g : B → M C) s :
  ((m ≫= f) ≫= g) s = (m ≫= λ a, f a ≫= g) s.
Proof. rewrite !bind_run. by destruct (m s) as [[a s1]|]. Qed.

(** A handle built from a non-null pointer and destroyed at once. *)
Lemma construct_destroy_nonnull this r s :
  handles s !! this = None → r ≠ nullptr →
  (construct this r;; destroy this) s
  = Some (tt, {| handles := handles s;
                 counters := counters s;
                 freed := r :: freed s |}).
Proof.
  intros Hfresh Hr.
  pose proof (fresh_counter_None (counters s)) as Hc.
  rewrite bind_run, construct_run. cbn zeta.
  rewrite bool_decide_eq_true_2 by done.
  erewrite destroy_run by apply lookup_insert_eq.
  unfold release_step. cbn [handles counters freed m_counter resource_].
  rewrite lookup_insert_eq.
  replace (PtrCounter.get (PtrCounter.decr (PtrCounter.incr PtrCounter.new))
           =? 0) with true by reflexivity.
  rewrite bool_decide_eq_false_2 by done. cbn [counters freed].
  rewrite (delete_insert_eq (handles s)), (delete_id _ _ Hfresh).
  by rewrite delete_insert_eq, (delete_id _ _ Hc).
Qed.

(** X13: assignment of a raw pointer does not check for the handle's own
    resource.  Assigning a sole owner the pointer it already holds deletes the
    resource and leaves the handle on the deleted resource with count 1:
    [operator*] is then undefined, and destroying the handle deletes the
    resource a second time. *)
Theorem X13_assign_own_raw_pointer (this : loc) (t : SmartPointer.t)
    (k : PtrCounter.t) (s : state) :
  handles s !! this = Some t →
  counters s !! m_counter t = Some k →
  PtrCounter.get k = 1 →
  resource_ t ≠ nullptr →
  ∃ c s',
    (p ← GetPointer this; assign_raw this p) s = Some (this, s')
    ∧ handles s' !! this = Some {| resource_ := resource_ t; m_counter := c |}
    ∧ freed s' = resource_ t :: freed s
    ∧ GetReferenceCount this s' = Some (1, s')
    ∧ operator_star this s' = None
    ∧ (freed <$> exec (destroy this) s')
      = Some (resource_ t :: resource_ t :: freed s).
Proof.
  intros Ht Hk Hone Hnn.
  assert (Hk' : k = {| PtrCounter.m_counter := 1 |}).
  { destruct k as [n]. unfold PtrCounter.get in Hone. simpl in Hone.
    by subst. }
  subst k.
  rewrite bind_run, (GetPointer_run _ _ _ Ht).
  rewrite (assign_raw_run _ _ _ _ Ht).
  unfold release_step. rewrite Hk.
  replace (PtrCounter.get (PtrCounter.decr {| PtrCounter.m_counter := 1 |})
           =? 0) with true by reflexivity.
  rewrite bool_decide_eq_false_2 by done.
  cbn [handles counters freed]. cbn zeta.
  rewrite bool_decide_eq_true_2 by done.
  set (c := fresh (dom (delete (m_counter t) (counters s)))).
  exists c. eexists. split; [reflexivity |].
  match goal with |- handles ?st !! _ = _ ∧ _ => set (s' := st) end.
  assert (Hthis : handles s' !! this
                  = Some {| resource_ := resource_ t; m_counter := c |})
    by apply lookup_insert_eq.
  assert (Hc : counters s' !! c = Some (PtrCounter.incr PtrCounter.new))
    by apply lookup_insert_eq.
  split; [exact Hthis |]. split; [done |].
  split; [by rewrite (GetReferenceCount_run _ _ _ _ Hthis Hc) |].
  split.
  - unfold operator_star. rewrite bind_run, (load_run _ _ _ Hthis).
    unfold deref_resource. rewrite bool_decide_eq_true_2; [done |].
    right. subst s'. cbn [freed resource_]. apply list_elem_of_here.
  - unfold exec. rewrite (destroy_run _ _ _ Hthis).
    unfold release_step. cbn [m_counter resource_]. rewrite Hc.
    replace (PtrCounter.get (PtrCounter.decr (PtrCounter.incr PtrCounter.new))
             =? 0) with true by reflexivity.
    by rewrite bool_decide_eq_false_2 by done.
Qed.

Lemma X13_assign_own_raw_pointer_witness :
  ∃ c s',
    (p ← GetPointer 1; assign_raw 1 p) sole_owner = Some (1%positive, s')
    ∧ handles s' !! 1%positive = Some {| resource_ := 5%N; m_counter := c |}
    ∧ freed s' = [5%N]
    ∧ GetReferenceCount 1 s' = Some (1, s')
    ∧ operator_star 1 s' = None
    ∧ (freed <$> exec (destroy 1) s') = Some [5%N; 5%N].
Proof.
  exact (X13_assign_own_raw_pointer 1
           {| resource_ := 5%N; m_counter := 1%positive |}
           {| PtrCounter.m_counter := 1 |} sole_owner
           eq_refl eq_refl eq_refl ltac:(discriminate)).
Defined.

(** X14: the constructor does not detect a pointer that a handle already
    owns.  Two handles built from one non-null pointer get separate
    counters, both at 1, and their destruction deletes the resource
    twice. *)
Theorem X14_same_raw_pointer_twice (a b : loc) (r : ptr) (s : state) :
  a ≠ b →
  handles s !! a = None → handles s !! b = None →
  r ≠ nullptr →
  ∃ s2,
    exec (construct a r;; construct b r) s = Some s2
    ∧ GetPointer a s2 = Some (r, s2)
    ∧ GetPointer b s2 = Some (r, s2)
    ∧ GetReferenceCount a s2 = Some (1, s2)
    ∧ GetReferenceCount b s2 = Some (1, s2)
    ∧ (destroy b;; destroy a) s2
      = Some (tt, {| handles := handles s;
                     counters := counters s;
                     freed := r :: r :: freed s |}).
Proof.
  intros Hab Ha Hb Hr.
  assert (Hpair : ∀ s0, handles s0 !! b = None →
            (construct b r;; destroy b;; destroy a) s0
            = destroy a {| handles := handles s0; counters := counters s0;
                           freed := r :: freed s0 |}).
  { intros s0 Hb0.
    rewrite <-(bind_assoc_run (construct b r) (λ _, destroy b)
                 (λ _, destroy a)).
    by rewrite (bind_run_Some _ _ _ _ _
                  (construct_destroy_nonnull b r s0 Hb0 Hr)). }
  unfold exec. rewrite bind_run, construct_run. cbn zeta.
  rewrite bool_decide_eq_true_2 by done.
  set (c1 := fresh (dom (counters s))).
  set (s1 := {| handles := <[a := {| resource_ := r; m_counter := c1 |}]>
                             (handles s);
                counters := <[c1 := PtrCounter.incr PtrCounter.new]>
                              (counters s);
                freed := freed s |}).
  assert (Hb1 : handles s1 !! b = None)
    by (subst s1; cbn [handles]; by rewrite lookup_insert_ne).
  pose proof (Hpair s1 Hb1) as Hrun.
  rewrite bind_run, construct_run in Hrun. cbn zeta in Hrun.
  rewrite bool_decide_eq_true_2 in Hrun by done.
  rewrite construct_run. cbn zeta. rewrite bool_decide_eq_true_2 by done.
  set (c2 := fresh (dom (counters s1))) in *.
  assert (Hc12 : c2 ≠ c1).
  { intros Heq. pose proof (fresh_counter_None (counters s1)) as Hf.
    fold c2 in Hf. rewrite Heq in Hf. subst s1. cbn [counters] in Hf.
    by rewrite lookup_insert_eq in Hf. }
  eexists. split; [reflexivity |]. cbn [snd].
  match goal with |- GetPointer a ?st = _ ∧ _ => set (s2 := st) in * end.
  assert (Ha2 : handles s2 !! a = Some {| resource_ := r; m_counter := c1 |}).
  { subst s2 s1. cbn [handles]. rewrite lookup_insert_ne by done.
    apply lookup_insert_eq. }
  assert (Hb2 : handles s2 !! b = Some {| resource_ := r; m_counter := c2 |})
    by apply lookup_insert_eq.
  assert (Hk1 : counters s2 !! c1 = Some (PtrCounter.incr PtrCounter.new)).
  { subst s2 s1. cbn [counters]. rewrite lookup_insert_ne by done.
    apply lookup_insert_eq. }
  assert (Hk2 : counters s2 !! c2 = Some (PtrCounter.incr PtrCounter.new))
    by apply lookup_insert_eq.
  split; [by rewrite (GetPointer_run _ _ _ Ha2) |].
  split; [by rewrite (GetPointer_run _ _ _ Hb2) |].
  split; [by rewrite (GetReferenceCount_run _ _ _ _ Ha2 Hk1) |].
  split; [by rewrite (GetReferenceCount_run _ _ _ _ Hb2 Hk2) |].
  rewrite Hrun. clear Hrun Ha2 Hb2 Hk1 Hk2 Hb1. subst s2 s1.
  erewrite destroy_run by (cbn [handles]; apply lookup_insert_eq).
  unfold release_step. cbn [handles counters freed m_counter resource_].
  rewrite lookup_insert_eq.
  replace (PtrCounter.get (PtrCounter.decr (PtrCounter.incr PtrCounter.new))
           =? 0) with true by reflexivity.
  rewrite bool_decide_eq_false_2 by done. cbn [counters freed].
  rewrite delete_insert_eq, (delete_id _ _ Ha).
  rewrite delete_insert_eq.
  by rewrite (delete_id _ c1 (fresh_counter_None (counters s))).
Qed.

Lemma X14_same_raw_pointer_twice_witness :
  ∃ s2,
    exec (construct 1 5;; construct 2 5) init_state = Some s2
    ∧ GetPointer 1 s2 = Some (5%N, s2)
    ∧ GetPointer 2 s2 = Some (5%N, s2)
    ∧ GetReferenceCount 1 s2 = Some (1, s2)
    ∧ GetReferenceCount 2 s2 = Some (1, s2)
    ∧ (destroy 2;; destroy 1) s2
      = Some (tt, {| handles := ∅; counters := ∅; freed := [5%N; 5%N] |}).
Proof.
  exact (X14_same_raw_pointer_twice 1 2 5 init_state
           ltac:(discriminate) eq_refl eq_refl ltac:(discriminate)).
Defined.
